(** * Geometry Viewer (streamlit_app.py): a shallow embedding and its properties

    The script is one top-to-bottom pass: upload, temporary file, parquet
    read, geometry column detection, geometry decoding, summary, type
    filter, CRS normalisation and map construction.  The pass is embedded
    as a computation in a state-and-exception monad whose state holds the
    file system and the trace of what the pass did (widgets shown, library
    calls made).  pyarrow, geopandas, pyproj and the Streamlit widgets are
    an interface ([GeoLib], [Session]); every theorem holds for all of
    their behaviours unless it names a hypothesis about them. *)

From Stdlib Require Import Ascii String QArith.
From stdpp Require Import base option list strings gmap pretty.

Open Scope string_scope.

(** ** Strings: [str.lower] and the [in] operator on strings *)

(** Column names are byte strings here; [lower] folds the letters A-Z and
    leaves every other byte alone, which is [str.lower] on ASCII names. *)
Definition lower_ascii (c : ascii) : ascii :=
  let n := nat_of_ascii c in
  if (65 <=? n)%nat && (n <=? 90)%nat then ascii_of_nat (n + 32) else c.

Fixpoint lower (s : string) : string :=
  match s with
  | EmptyString => EmptyString
  | String c s' => String (lower_ascii c) (lower s')
  end.

(** [contains needle hay] is Python's [needle in hay]. *)
Fixpoint contains (needle hay : string) : bool :=
  String.prefix needle hay ||
  match hay with
  | EmptyString => false
  | String _ hay' => contains needle hay'
  end.

(** ** Exceptions *)

Inductive exn := Exn (msg : string).

Definition str_exn (e : exn) : string := let 'Exn msg := e in msg.

Inductive result (A : Type) :=
| Ok (a : A)
| Raise (e : exn).
Arguments Ok {A} a.
Arguments Raise {A} e.

(** ** Frames *)

(** A column label of the frame [to_pandas()] returns: a str, or a label of
    another type (an int, a tuple, bytes), given by the exception that
    the test of line 31 raises on it: the AttributeError of [col.lower()]
    for an int. *)
Inductive column_label :=
| StrLabel (name : string)
| OtherLabel (raises : exn).

(** The types the libraries own. *)
Class Carriers := {
  DataFrame : Type;   (* pandas.DataFrame as returned by to_pandas() *)
  Label : Type;       (* a row label of the frame's index *)
  Geometry : Type;    (* a value of a geometry column *)
  CRS : Type;         (* pyproj.CRS *)
  Float : Type;       (* numpy.float64 *)
}.

Section Frames.
Context `{Carriers}.

(** A row of a GeoDataFrame: its index label, its value in the active
    geometry column (what [gdf.geometry] reads), and its value in the
    column labelled [geometry] when the frame has a column of that name
    (what [row.geometry] reads on the Series that [iterrows()] yields).
    The other columns travel with the row through every operation of the
    script and are not inspected by it. *)
Record Row := mkRow {
  row_idx : Label;
  row_geometry : Geometry;
  row_labelled_geometry : option Geometry;
}.

Record GeoDataFrame := mkGdf { gdf_rows : list Row; gdf_crs : option CRS }.

(** folium objects built by the script. *)
Record Marker := mkMarker { marker_location : Float * Float; marker_popup : string }.

Inductive Style :=
| LineStyle (color : string) (weight : Z) (opacity : Q)
| PolygonStyle (fillColor color : string) (weight : Z) (fillOpacity : Q).

(** The children of a map: the base tile layer [folium.Map] starts with,
    [MarkerCluster()] with the markers added to it,
    [folium.GeoJson(data, name=name, style_function=...)] and
    [folium.LayerControl()]. *)
Inductive Layer :=
| TileLayer (tiles : string)
| MarkerClusterLayer (markers : list Marker)
| GeoJson (data : GeoDataFrame) (name : option string) (style : Style)
| LayerControl.

Record FoliumMap := mkMap {
  map_location : Float * Float;
  map_zoom_start : Z;
  map_children : list Layer;
}.

(** What a pass does, in order. *)
Inductive event :=
| StSetPageConfig (page_title layout : string)
| StTitle (s : string)
| StWrite (s : string)
| StMarkdown (s : string)
| StSidebarTitle (s : string)
| StSidebarMarkdown (s : string)
| StFileUploader (label : string)
| StInfo (s : string)
| StError (s : string)
| StWarning (s : string)
| StSubheader (s : string)
| StColumns (n : nat)
| StDataframe (df : DataFrame)
| StSelectbox (label : string) (options : list string)
| StMultiselect (label : string) (options default : list (option string))
| FoliumStatic (m : FoliumMap)
| CallReadTable (path : string)
| CallGeoDataFrame (geometry_col : string)
| CallFromWkt (geometry_col : string)
| CallFromWkb (geometry_col : string)
| CallToCrs (data : GeoDataFrame) (target : string)
| CallTotalBounds (data : GeoDataFrame).

End Frames.

(** The library functions the script calls.  A function that can raise
    returns a [result]. *)
Class GeoLib `{Carriers} := {
  df_columns : DataFrame → list column_label;
  df_head : DataFrame → DataFrame;
  (* pq.read_table(path).to_pandas(), on the bytes stored at path *)
  read_table_to_pandas : list Byte.byte → result DataFrame;
  (* gpd.GeoDataFrame(df, geometry=geometry_col) *)
  GeoDataFrame_of_column : DataFrame → string → result GeoDataFrame;
  (* isinstance(v, gpd.geoseries.GeoSeries) *)
  isinstance_GeoSeries : Geometry → bool;
  (* gpd.GeoDataFrame(df, geometry=gpd.GeoSeries.from_wkt(df[geometry_col])) *)
  GeoDataFrame_from_wkt : DataFrame → string → result GeoDataFrame;
  (* gpd.GeoDataFrame(df, geometry=gpd.GeoSeries.from_wkb(df[geometry_col])) *)
  GeoDataFrame_from_wkb : DataFrame → string → result GeoDataFrame;
  (* geometry.geom_type: None for a missing geometry *)
  geom_type : Geometry → option string;
  geom_x : Geometry → result Float;
  geom_y : Geometry → result Float;
  (* crs != user_input *)
  crs_ne : CRS → string → bool;
  str_crs : CRS → string;
  str_label : Label → string;
  to_crs : GeoDataFrame → string → result GeoDataFrame;
  total_bounds : GeoDataFrame → result (Float * Float * Float * Float);
  (* what folium.GeoJson(data, ...) does with its data on construction: it
     reprojects the frame to EPSG:4326 and encodes it, and raises when
     that fails (a frame without CRS cannot be reprojected) *)
  folium_GeoJson : GeoDataFrame → result ();
  fadd : Float → Float → Float;
  fdiv : Float → Float → Float;
  float_of_Z : Z → Float;
}.

(** The state of the widgets during one pass: what the user uploaded and
    what the two selection widgets return for the options they are given. *)
Class Session := {
  uploaded_file : option (list Byte.byte);
  (* name picked by tempfile.NamedTemporaryFile for the given directory state *)
  tmp_name : gmap string (list Byte.byte) → string;
  selectbox_value : string → list string → string;
  multiselect_value :
    string → list (option string) → list (option string) → list (option string);
}.

(** ** The monad of a pass *)

Global Instance result_ret : MRet result := λ A a, Ok a.
Global Instance result_bind : MBind result := λ A B f r,
  match r with
  | Ok a => f a
  | Raise e => Raise e
  end.

Section Script.
Context `{GeoLib} `{Session}.

(** The world a pass runs in: the files on disk and the trace so far. *)
Record world := mkWorld {
  fs : gmap string (list Byte.byte);
  trace : list event;
}.

Definition M (A : Type) : Type := world → result A * world.

Global Instance M_ret : MRet M := λ A a w, (Ok a, w).
Global Instance M_bind : MBind M := λ A B f m w,
  match m w with
  | (Ok a, w') => f a w'
  | (Raise e, w') => (Raise e, w')
  end.

Definition emit (e : event) : M unit :=
  λ w, (Ok (), mkWorld (fs w) (trace w ++ [e])).

Definition lift {A} (r : result A) : M A := λ w, (r, w).

(** [try: body except Exception as e: handler e] *)
Definition try_except {A} (body : M A) (handler : exn → M A) : M A :=
  λ w,
    match body w with
    | (Ok a, w') => (Ok a, w')
    | (Raise e, w') => handler e w'
    end.

(** [try: body finally: cleanup] *)
Definition try_finally {A} (body : M A) (cleanup : M unit) : M A :=
  λ w,
    let '(r, w') := body w in
    match cleanup w' with
    | (Ok _, w'') => (r, w'')
    | (Raise e, w'') => (Raise e, w'')
    end.

(** *** Streamlit widgets *)

Definition st_error (s : string) : M unit := emit (StError s).
Definition st_warning (s : string) : M unit := emit (StWarning s).
Definition st_info (s : string) : M unit := emit (StInfo s).
Definition st_write (s : string) : M unit := emit (StWrite s).
Definition st_subheader (s : string) : M unit := emit (StSubheader s).

Definition st_file_uploader (label : string) : M (option (list Byte.byte)) :=
  emit (StFileUploader label);; mret uploaded_file.

Definition st_selectbox (label : string) (options : list string) : M string :=
  emit (StSelectbox label options);; mret (selectbox_value label options).

Definition st_multiselect (label : string) (options default : list (option string))
    : M (list (option string)) :=
  emit (StMultiselect label options default);;
  mret (multiselect_value label options default).

(** *** The temporary file (lines 21-23, 27 and 153) *)

(** [with tempfile.NamedTemporaryFile(delete=False, ...) as tmp_file:
      tmp_file.write(payload); tmp_path = tmp_file.name] *)
Definition NamedTemporaryFile_write (payload : list Byte.byte) : M string :=
  λ w,
    let tmp_path := tmp_name (fs w) in
    (Ok tmp_path, mkWorld (<[tmp_path := payload]> (fs w)) (trace w)).

Definition os_unlink (path : string) : M unit :=
  λ w,
    match fs w !! path with
    | Some _ => (Ok (), mkWorld (delete path (fs w)) (trace w))
    | None => (Raise (Exn "[Errno 2] No such file or directory"), w)
    end.

Definition read_bytes (path : string) : M (list Byte.byte) :=
  λ w,
    match fs w !! path with
    | Some content => (Ok content, w)
    | None => (Raise (Exn "[Errno 2] No such file or directory"), w)
    end.

(** [pq.read_table(path).to_pandas()] *)
Definition pq_read_table (path : string) : M DataFrame :=
  emit (CallReadTable path);;
  content ← read_bytes path;
  lift (read_table_to_pandas content).

(** *** Geometry column detection (lines 31-40) *)

(** [col.lower()] *)
Definition label_lower (col : column_label) : result string :=
  match col with
  | StrLabel name => Ok (lower name)
  | OtherLabel raises => Raise raises
  end.

(** [[col for col in columns if test(col.lower())]]: the labels are gone
    through in order, and the first one the test raises on ends the
    comprehension.  A label that passes the test is a str. *)
Fixpoint columns_where (test : string → bool) (columns : list column_label)
    : result (list string) :=
  match columns with
  | [] => Ok []
  | col :: columns' =>
      lowered ← label_lower col;
      kept ← columns_where test columns';
      Ok (match col with
          | StrLabel name => if test lowered then name :: kept else kept
          | OtherLabel _ => kept
          end)
  end.

Definition geometry_cols_of (df : DataFrame) : result (list string) :=
  columns_where
    (λ lowered, contains "geom" lowered || contains "geometry" lowered)
    (df_columns df).

(** [geometry_cols[0]] *)
Definition getitem0 (l : list string) : M string :=
  match l with
  | [] => lift (Raise (Exn "list index out of range"))
  | x :: _ => mret x
  end.

(** *** Geometry decoding (lines 44-55) *)

(** [gdf.geometry.iloc[0]] *)
Definition iloc0 (gdf : GeoDataFrame) : M Geometry :=
  match gdf_rows gdf with
  | [] => lift (Raise (Exn "single positional indexer is out-of-bounds"))
  | r :: _ => mret (row_geometry r)
  end.

Definition decode_geometry (df : DataFrame) (geometry_col : string) : M GeoDataFrame :=
  emit (CallGeoDataFrame geometry_col);;
  gdf ← lift (GeoDataFrame_of_column df geometry_col);
  first ← iloc0 gdf;
  if negb (isinstance_GeoSeries first) then
    try_except
      (emit (CallFromWkt geometry_col);;
       lift (GeoDataFrame_from_wkt df geometry_col))
      (λ _,
        try_except
          (emit (CallFromWkb geometry_col);;
           lift (GeoDataFrame_from_wkb df geometry_col))
          (λ _,
            st_error "Could not convert the geometry column to a valid geometry. Please check your data.";;
            mret gdf))
  else mret gdf.

(** *** Summary (lines 58-69) *)

(** [gdf.geometry.type] *)
Definition geometry_types_of (gdf : GeoDataFrame) : list (option string) :=
  (λ r, geom_type (row_geometry r)) <$> gdf_rows gdf.

(** [Series.unique()]: the distinct values in order of first appearance. *)
Fixpoint unique_from (seen l : list (option string)) : list (option string) :=
  match l with
  | [] => []
  | x :: l' =>
      if bool_decide (x ∈ seen) then unique_from seen l'
      else x :: unique_from (x :: seen) l'
  end.

Definition unique (l : list (option string)) : list (option string) :=
  unique_from [] l.

(** [sep.join(items)]: a TypeError at the first item that is not a str. *)
Fixpoint join_from (i : nat) (sep : string) (items : list (option string)) : result string :=
  match items with
  | [] => Ok ""
  | None :: _ =>
      Raise (Exn ("sequence item " +:+ pretty i +:+ ": expected str instance, NoneType found"))
  | Some s :: items' =>
      rest ← join_from (S i) sep items';
      Ok (match items' with
          | [] => s
          | _ :: _ => s +:+ sep +:+ rest
          end)
  end.

Definition join (sep : string) (items : list (option string)) : result string :=
  join_from 0 sep items.

Definition str_option_crs (c : option CRS) : string :=
  match c with
  | Some crs => str_crs crs
  | None => "None"
  end.

Definition show_info (df : DataFrame) (gdf : GeoDataFrame) : M (list (option string)) :=
  st_subheader "Data Information";;
  emit (StColumns 2);;
  st_write ("Total rows: " +:+ pretty (length (gdf_rows gdf)));;
  st_write ("CRS: " +:+ str_option_crs (gdf_crs gdf));;
  let geometry_types := unique (geometry_types_of gdf) in
  joined ← lift (join ", " geometry_types);
  st_write ("Geometry types: " +:+ joined);;
  st_subheader "Data Sample";;
  emit (StDataframe (df_head df));;
  mret geometry_types.

(** *** Filtering by geometry type (line 78) *)

(** [Series.isin(values)] on one element. *)
Definition isin (t : option string) (values : list (option string)) : bool :=
  bool_decide (t ∈ values).

(** [frame[mask]]: the rows at which the boolean mask is True. *)
Fixpoint boolean_index (rows : list Row) (mask : list bool) : list Row :=
  match rows, mask with
  | r :: rows', b :: mask' =>
      if b then r :: boolean_index rows' mask' else boolean_index rows' mask'
  | _, _ => []
  end.

Definition getitem_mask (gdf : GeoDataFrame) (mask : list bool) : GeoDataFrame :=
  mkGdf (boolean_index (gdf_rows gdf) mask) (gdf_crs gdf).

(** [gdf[gdf.geometry.type.isin(selected_types)]] *)
Definition filterByTypes (gdf : GeoDataFrame) (selected_types : list (option string))
    : GeoDataFrame :=
  getitem_mask gdf ((λ t, isin t selected_types) <$> geometry_types_of gdf).

(** [series == value] on one element: False where either side is None. *)
Definition series_eq (t' t : option string) : bool :=
  match t', t with
  | Some a, Some b => bool_decide (a = b)
  | _, _ => false
  end.

(** [filtered_gdf[filtered_gdf.geometry.type == geom_type]] *)
Definition select_type (filtered_gdf : GeoDataFrame) (t : option string) : GeoDataFrame :=
  getitem_mask filtered_gdf
    ((λ t', series_eq t' t) <$> geometry_types_of filtered_gdf).

(** *** CRS normalisation (lines 83-84) *)

(** [if gdf.crs and gdf.crs != "EPSG:4326":
       filtered_gdf = filtered_gdf.to_crs("EPSG:4326")].
    A pyproj CRS object is truthy, so [gdf.crs] is falsy exactly when it
    is None. *)
Definition normalizeCRS (gdf filtered_gdf : GeoDataFrame) : M GeoDataFrame :=
  match gdf_crs gdf with
  | Some crs =>
      if crs_ne crs "EPSG:4326" then
        emit (CallToCrs filtered_gdf "EPSG:4326");;
        lift (to_crs filtered_gdf "EPSG:4326")
      else mret filtered_gdf
  | None => mret filtered_gdf
  end.

(** *** Map construction (lines 87-138) *)

(** [bounds[1] + bounds[3]) / 2] and [(bounds[0] + bounds[2]) / 2] *)
Definition center_of (bounds : Float * Float * Float * Float) : Float * Float :=
  let '(b0, b1, b2, b3) := bounds in
  let center_lat := fdiv (fadd b1 b3) (float_of_Z 2) in
  let center_lon := fdiv (fadd b0 b2) (float_of_Z 2) in
  (center_lat, center_lon).

(** [row.geometry] on a row of [iterrows()]: the value under the label
    [geometry], an AttributeError when the frame has no such column. *)
Definition getattr_geometry (row : Row) : result Geometry :=
  match row_labelled_geometry row with
  | Some value => Ok value
  | None => Raise (Exn "'Series' object has no attribute 'geometry'")
  end.

(** The markers of lines 102-106, one per row of [type_gdf.iterrows()]. *)
Fixpoint markers_of (rows : list Row) : result (list Marker) :=
  match rows with
  | [] => Ok []
  | row :: rows' =>
      y ← getattr_geometry row ≫= geom_y;
      x ← getattr_geometry row ≫= geom_x;
      let marker := mkMarker (y, x) ("ID: " +:+ str_label (row_idx row)) in
      markers ← markers_of rows';
      Ok (marker :: markers)
  end.

Definition line_style : Style := LineStyle "blue" 3 0.7.
Definition polygon_style : Style := PolygonStyle "green" "black" 1 0.5.

(** One iteration of the loop of line 95: the children of the map after
    the iteration, given its children before. *)
Definition add_layer (filtered_gdf : GeoDataFrame) (children : list Layer)
    (t : option string) : result (list Layer) :=
  let type_gdf := select_type filtered_gdf t in
  if (0 <? length (gdf_rows type_gdf))%nat then
    if bool_decide (t = Some "Point") then
      markers ← markers_of (gdf_rows type_gdf);
      Ok (children ++ [MarkerClusterLayer markers])%list
    else if bool_decide (t ∈ [Some "LineString"; Some "MultiLineString"]) then
      folium_GeoJson type_gdf;;
      Ok (children ++ [GeoJson type_gdf t line_style])%list
    else if bool_decide (t ∈ [Some "Polygon"; Some "MultiPolygon"]) then
      folium_GeoJson type_gdf;;
      Ok (children ++ [GeoJson type_gdf t polygon_style])%list
    else Ok children
  else Ok children.

Fixpoint add_layers (filtered_gdf : GeoDataFrame) (children : list Layer)
    (selected_types : list (option string)) : result (list Layer) :=
  match selected_types with
  | [] => Ok children
  | t :: rest =>
      children' ← add_layer filtered_gdf children t;
      add_layers filtered_gdf children' rest
  end.

(** The children of [folium.Map(location=..., zoom_start=10)] when it is
    made: the base tile layer of the default [tiles].  The location is
    taken to be one that folium accepts. *)
Definition base_children : list Layer := [TileLayer "OpenStreetMap"].

Definition render_map (gdf filtered_gdf : GeoDataFrame)
    (selected_types : list (option string)) : M unit :=
  filtered_gdf ← normalizeCRS gdf filtered_gdf;
  emit (CallTotalBounds filtered_gdf);;
  bounds ← lift (total_bounds filtered_gdf);
  children ← lift (add_layers filtered_gdf base_children selected_types);
  let m := mkMap (center_of bounds) 10 (children ++ [LayerControl])%list in
  st_subheader "Map Visualization";;
  emit (FoliumStatic m).

(** *** Lines 77-143 *)

Definition filter_and_render (gdf : GeoDataFrame)
    (selected_types : list (option string)) : M unit :=
  match selected_types with
  | _ :: _ =>
      let filtered_gdf := filterByTypes gdf selected_types in
      try_except
        (render_map gdf filtered_gdf selected_types)
        (λ e, st_error ("Error creating map: " +:+ str_exn e))
  | [] => st_warning "Please select at least one geometry type to display"
  end.

(** *** Lines 57-143: everything after the decoding *)

Definition show_and_render (df : DataFrame) (gdf : GeoDataFrame) : M unit :=
  geometry_types ← show_info df gdf;
  st_subheader "Filter by Geometry Type";;
  selected_types ←
    st_multiselect "Select geometry types to display" geometry_types geometry_types;
  filter_and_render gdf selected_types.

(** *** Lines 42-143: the body of the inner [try] *)

Definition process (df : DataFrame) (geometry_col : string) : M unit :=
  gdf ← decode_geometry df geometry_col;
  show_and_render df gdf.

(** *** Lines 31-146 *)

Definition select_geometry_col (geometry_cols : list string) : M string :=
  if (1 <? length geometry_cols)%nat then
    st_selectbox "Select geometry column" geometry_cols
  else getitem0 geometry_cols.

Definition resolve_and_process (df : DataFrame) : M unit :=
  geometry_cols ← lift (geometry_cols_of df);
  match geometry_cols with
  | [] =>
      st_error "No geometry column found in the uploaded file. Please make sure your file contains a column with geometry data."
  | _ :: _ =>
      geometry_col ← select_geometry_col geometry_cols;
      try_except
        (process df geometry_col)
        (λ e, st_error ("Error processing the data: " +:+ str_exn e))
  end.

(** *** Lines 19-155 *)

Definition handle_upload (payload : list Byte.byte) : M unit :=
  tmp_path ← NamedTemporaryFile_write payload;
  try_finally
    (try_except
       (df ← pq_read_table tmp_path; resolve_and_process df)
       (λ e, st_error ("Error reading the parquet file: " +:+ str_exn e)))
    (os_unlink tmp_path).

Definition nl : string := String (ascii_of_nat 10) "".

Definition unlines (ls : list string) : string :=
  foldr (λ l acc, l +:+ nl +:+ acc) "" ls.

Definition supported_formats : string :=
  nl +:+ unlines [
    "### Supported formats";
    "- The app expects geometry data in a common format (WKT, WKB, or GeoSeries)";
    "- Supported geometry types: Point, MultiPoint, LineString, MultiLineString, Polygon, MultiPolygon";
    "- The parquet file should contain at least one column with geometry data";
    "- For best results, use data with EPSG:4326 (WGS84) coordinate reference system"].

Definition requirements : string :=
  nl +:+ unlines [
    "To run this app, you need the following Python packages:";
    "```"; "streamlit"; "pandas"; "geopandas"; "folium"; "streamlit-folium";
    "pyarrow"; "shapely"; "```"; "";
    "Install them with:";
    "```";
    "pip install streamlit pandas geopandas folium streamlit-folium pyarrow shapely";
    "```"].

(** The whole script. *)
Definition main : M unit :=
  emit (StSetPageConfig "Geometry Viewer" "wide");;
  emit (StTitle "Geometry Viewer from Parquet Data");;
  st_write "Upload a parquet file containing geometry data to visualize on a map.";;
  uploaded ← st_file_uploader "Choose a parquet file";
  match uploaded with
  | Some payload => handle_upload payload
  | None => st_info "Please upload a parquet file containing geometry data."
  end;;
  emit (StMarkdown supported_formats);;
  emit (StSidebarTitle "Requirements");;
  emit (StSidebarMarkdown requirements).

(** A pass started on a disk holding [fs0]. *)
Definition run_pass (fs0 : gmap string (list Byte.byte)) : result unit * world :=
  main (mkWorld fs0 []).

End Script.

(** ** A concrete library and session

    A small stand-in for the libraries, used to run the script on explicit
    inputs.  A column value is a geometry object, a WKT text, a WKB blob or
    a missing value; the constructors accept a column exactly when all its
    values have the encoding they expect, and an element of a geometry
    column is never itself a GeoSeries. *)
Module Demo.

Inductive shape :=
| Shape (kind : string) (coords : list (Q * Q))
| Missing.

Inductive value :=
| VGeom (g : shape)
| VWkt (g : shape)
| VWkb (g : shape).

Record frame := mkFrame {
  columns : list column_label;
  geometry_values : list value;
  frame_crs : option string;
}.

Global Instance carriers : Carriers := {|
  DataFrame := frame;
  Label := nat;
  Geometry := shape;
  CRS := string;
  Float := Q;
|}.

Definition as_geom (v : value) : option shape :=
  match v with VGeom g => Some g | _ => None end.
Definition as_wkt (v : value) : option shape :=
  match v with VWkt g => Some g | _ => None end.
Definition as_wkb (v : value) : option shape :=
  match v with VWkb g => Some g | _ => None end.

(** The rows of a frame over the geometries [gs], labelled from [i] on;
    [named] tells whether the geometry column is labelled [geometry]. *)
Fixpoint number_from (named : bool) (i : nat) (gs : list shape) : list Row :=
  match gs with
  | [] => []
  | g :: gs' =>
      mkRow i g (if named then Some g else None) :: number_from named (S i) gs'
  end.

Definition build (named : bool) (decode : value → option shape) (msg : string)
    (df : frame) : result GeoDataFrame :=
  match mapM decode (geometry_values df) with
  | Some gs => Ok (mkGdf (number_from named 0 gs) (frame_crs df))
  | None => Raise (Exn msg)
  end.

(** The constructor keeps the name of the column it is given; given a
    GeoSeries it names the geometry column [geometry]. *)
Definition is_geometry (col : string) : bool := String.eqb col "geometry".

(** Reprojection of a frame that has no CRS raises. *)
Definition reproject (f : GeoDataFrame) (target : string) : result GeoDataFrame :=
  match gdf_crs f with
  | Some _ => Ok (mkGdf (gdf_rows f) (Some target))
  | None =>
      Raise (Exn "Cannot transform naive geometries.  Please set a crs on the object first.")
  end.

Definition kind_of (g : shape) : option string :=
  match g with Shape kind _ => Some kind | Missing => None end.

Definition coords_of (g : shape) : list (Q * Q) :=
  match g with Shape _ coords => coords | Missing => [] end.

Definition coord (proj : Q * Q → Q) (g : shape) : result Q :=
  match g with
  | Shape "Point" (c :: _) => Ok (proj c)
  | _ => Raise (Exn "no such attribute")
  end.

Definition qmin (a b : Q) : Q := if Qle_bool a b then a else b.
Definition qmax (a b : Q) : Q := if Qle_bool a b then b else a.

Definition bounds_of (f : GeoDataFrame) : result (Q * Q * Q * Q) :=
  match concat (coords_of ∘ row_geometry <$> gdf_rows f) with
  | [] => Raise (Exn "empty frame")
  | (x, y) :: cs =>
      Ok (foldl (λ '(x0, y0, x1, y1) '(x', y'),
                   (qmin x0 x', qmin y0 y', qmax x1 x', qmax y1 y'))
                (x, y, x, y) cs)
  end.

Definition lib (read : list Byte.byte → result frame) : GeoLib := {|
  df_columns := columns;
  df_head := λ df, df;
  read_table_to_pandas := read;
  GeoDataFrame_of_column := λ df col,
    build (is_geometry col) as_geom "Input must be valid geometry objects" df;
  isinstance_GeoSeries := λ _, false;
  GeoDataFrame_from_wkt := λ df _, build true as_wkt "Expected bytes or string" df;
  GeoDataFrame_from_wkb := λ df _, build true as_wkb "Expected bytes or string" df;
  geom_type := kind_of;
  geom_x := coord fst;
  geom_y := coord snd;
  crs_ne := λ crs s, negb (String.eqb crs s);
  str_crs := λ crs, crs;
  str_label := pretty;
  to_crs := reproject;
  total_bounds := bounds_of;
  folium_GeoJson := λ f, reproject f "EPSG:4326" ≫= λ _, Ok ();
  fadd := λ a b, Qred (a + b);
  fdiv := λ a b, Qred (a / b);
  float_of_Z := inject_Z;
|}.

(** A session in which [payload] is uploaded, the first candidate column
    stays selected, and the user keeps the geometry types in [wanted]. *)
Definition session (payload : option (list Byte.byte)) (wanted : list (option string))
    : Session := {|
  uploaded_file := payload;
  tmp_name := λ _, "/tmp/tmpk3v9x2ab.parquet";
  selectbox_value := λ _ options, default "" (head options);
  multiselect_value := λ _ options _, filter (λ t, t ∈ wanted) options;
|}.

Definition payload : list Byte.byte := [Byte.x50; Byte.x41; Byte.x52; Byte.x31].

Definition pt (x y : Z) : Q * Q := (inject_Z x, inject_Z y).

(** Three points and two polygons as native geometry objects, CRS unset. *)
Definition native_frame : frame :=
  mkFrame [StrLabel "id"; StrLabel "geometry"]
    [VGeom (Shape "Point" [pt 0 0]); VGeom (Shape "Point" [pt 2 4]);
     VGeom (Shape "Point" [pt 4 2]);
     VGeom (Shape "Polygon" [pt 0 0; pt 6 0; pt 6 6]);
     VGeom (Shape "Polygon" [pt 1 1; pt 2 1; pt 2 2])]
    None.

(** The same column as WKT text. *)
Definition wkt_frame : frame :=
  mkFrame [StrLabel "id"; StrLabel "geometry"]
    [VWkt (Shape "Point" [pt 0 0]); VWkt (Shape "Polygon" [pt 0 0; pt 6 0; pt 6 6])]
    None.

(** One MultiPoint row. *)
Definition multipoint_frame : frame :=
  mkFrame [StrLabel "id"; StrLabel "geom"] [VGeom (Shape "MultiPoint" [pt 1 1; pt 3 5])] None.

Definition all_types : list (option string) :=
  [Some "Point"; Some "MultiPoint"; Some "LineString"; Some "MultiLineString";
   Some "Polygon"; Some "MultiPolygon"].

Definition run (df : frame) (wanted : list (option string)) : result unit * world :=
  @run_pass carriers (lib (λ _, Ok df)) (session (Some payload) wanted) ∅.

(** The body of the inner [try] of the script, run on [df] with its column
    [geometry_col] selected, from an empty trace. *)
Definition run_process (df : frame) (geometry_col : string)
    (wanted : list (option string)) : result unit * world :=
  @process carriers (lib (λ _, Ok df)) (session (Some payload) wanted)
    df geometry_col (mkWorld ∅ []).

(** A row of a frame whose geometry column is labelled [geometry]. *)
Definition row (i : nat) (g : shape) : Row := mkRow i g (Some g).

(** What decoding [native_frame] gives. *)
Definition native_gdf : GeoDataFrame :=
  mkGdf
    [row 0 (Shape "Point" [pt 0 0]); row 1 (Shape "Point" [pt 2 4]);
     row 2 (Shape "Point" [pt 4 2]);
     row 3 (Shape "Polygon" [pt 0 0; pt 6 0; pt 6 6]);
     row 4 (Shape "Polygon" [pt 1 1; pt 2 1; pt 2 2])]
    None.


(** What decoding [multipoint_frame], whose geometry column is labelled
    [geom], gives. *)
Definition one_multipoint : GeoDataFrame :=
  mkGdf [mkRow 0%nat (Shape "MultiPoint" [pt 1 1; pt 3 5]) None] None.

(** A point followed by a missing geometry. *)
Definition with_missing : GeoDataFrame :=
  mkGdf [row 0 (Shape "Point" [pt 0 0]); row 1 Missing] None.

(** A line and a polygon, in EPSG:4326. *)
Definition line_and_polygon : GeoDataFrame :=
  mkGdf
    [row 0 (Shape "LineString" [pt 0 0; pt 1 1]);
     row 1 (Shape "Polygon" [pt 0 0; pt 6 0; pt 6 6])]
    (Some "EPSG:4326").

(** A frame read from a file whose first column label is the integer 0. *)
Definition int_label_frame : frame :=
  mkFrame
    [OtherLabel (Exn "'int' object has no attribute 'lower'"); StrLabel "geometry"]
    [VGeom (Shape "Point" [pt 0 0])]
    None.

Definition shape_of (v : value) : shape :=
  match v with VGeom g | VWkt g | VWkb g => g end.

(** The library with a WKT parser that lets every value through, as
    [from_wkt] does for a column of missing values. *)
Definition lenient_lib (read : list Byte.byte → result frame) : GeoLib := {|
  df_columns := columns;
  df_head := λ df, df;
  read_table_to_pandas := read;
  GeoDataFrame_of_column := λ df col,
    build (is_geometry col) as_geom "Input must be valid geometry objects" df;
  isinstance_GeoSeries := λ _, false;
  GeoDataFrame_from_wkt := λ df _,
    build true (Some ∘ shape_of) "Expected bytes or string" df;
  GeoDataFrame_from_wkb := λ df _, build true as_wkb "Expected bytes or string" df;
  geom_type := kind_of;
  geom_x := coord fst;
  geom_y := coord snd;
  crs_ne := λ crs s, negb (String.eqb crs s);
  str_crs := λ crs, crs;
  str_label := pretty;
  to_crs := reproject;
  total_bounds := bounds_of;
  folium_GeoJson := λ f, reproject f "EPSG:4326" ≫= λ _, Ok ();
  fadd := λ a b, Qred (a + b);
  fdiv := λ a b, Qred (a / b);
  float_of_Z := inject_Z;
|}.

End Demo.

(** ** Vocabulary of the statements *)

(** [c] is the character [t], or [t] is a lower-case letter (codes 97 to
    122) and [c] its capital (32 codes below). *)
Definition same_letter (t c : ascii) : Prop :=
  c = t ∨
  (97 ≤ nat_of_ascii t ≤ 122)%nat ∧ (nat_of_ascii c + 32)%nat = nat_of_ascii t.

(** [s] is the lower-case word [token] with each of its letters in either
    case. *)
Fixpoint case_variant (token s : string) : Prop :=
  match token, s with
  | EmptyString, EmptyString => True
  | String t token', String c s' => same_letter t c ∧ case_variant token' s'
  | _, _ => False
  end.

(** The resolver's test on one column name, as the specification words it:
    one of the two tokens occurs in the name, the case of the letters
    being ignored. *)
Definition name_matches (col : string) : Prop :=
  ∃ token pre mid post,
    token ∈ ["geom"; "geometry"] ∧ col = pre +:+ mid +:+ post ∧
    case_variant token mid.

Section Vocabulary.
Context `{GeoLib} `{Session}.

(** [w] with the events [l] appended to its trace. *)
Definition logged (w : world) (l : list event) : world :=
  mkWorld (fs w) (trace w ++ l).

(** A computation that leaves the files on disk alone. *)
Definition keeps_fs {A} (m : M A) : Prop :=
  ∀ w, fs (m w).2 = fs w.

(** A computation that only appends to the trace, every event it appends
    satisfying [P], and whose result, when it returns one, satisfies [Q]. *)
Definition produces {A} (m : M A) (P : event → Prop) (Q : A → Prop) : Prop :=
  ∀ w, ∃ l,
    trace (m w).2 = (trace w ++ l)%list ∧ Forall P l ∧
    ∀ a, (m w).1 = Ok a → Q a.

(** An event that is neither the type selector nor a request for the
    bounding envelope. *)
Definition plain (e : event) : Prop :=
  match e with
  | StMultiselect _ _ _ | CallTotalBounds _ => False
  | _ => True
  end.

(** The bounding envelope is only ever asked of a frame with rows. *)
Definition bounds_on_rows (e : event) : Prop :=
  match e with
  | CallTotalBounds f => gdf_rows f ≠ []
  | _ => True
  end.

(** The same, and the type selector offers exactly the distinct geometry
    types of [gdf], all of them preselected. *)
Definition offers_types_of (gdf : GeoDataFrame) (e : event) : Prop :=
  match e with
  | StMultiselect _ options default =>
      options = unique (geometry_types_of gdf) ∧ default = options
  | _ => bounds_on_rows e
  end.

(** What every pass shows first (lines 11-17) and last (lines 158-184). *)
Definition page_header : list event :=
  [StSetPageConfig "Geometry Viewer" "wide";
   StTitle "Geometry Viewer from Parquet Data";
   StWrite "Upload a parquet file containing geometry data to visualize on a map.";
   StFileUploader "Choose a parquet file"].

Definition page_footer : list event :=
  [StMarkdown supported_formats;
   StSidebarTitle "Requirements";
   StSidebarMarkdown requirements].

(** An event that shows neither a map, nor an error, nor a warning. *)
Definition quiet (e : event) : Prop :=
  match e with
  | FoliumStatic _ | StError _ | StWarning _ => False
  | _ => True
  end.

(** The geometry types the layer loop has a branch for. *)
Definition handled_types : list (option string) :=
  [Some "Point"; Some "LineString"; Some "MultiLineString";
   Some "Polygon"; Some "MultiPolygon"].

(** A layer as the loop builds them: a cluster with at least one marker,
    every popup of the form [ID: label]; or a GeoJson layer named after a
    line or polygon type, holding at least one row, rows of that type
    only, in the style of its kind. *)
Definition proper_layer (layer : Layer) : Prop :=
  match layer with
  | MarkerClusterLayer markers =>
      markers ≠ [] ∧
      Forall (λ m, ∃ label, marker_popup m = "ID: " +:+ str_label label) markers
  | GeoJson data name style =>
      gdf_rows data ≠ [] ∧
      Forall (λ r, geom_type (row_geometry r) = name) (gdf_rows data) ∧
      (name ∈ [Some "LineString"; Some "MultiLineString"] ∧ style = line_style ∨
       name ∈ [Some "Polygon"; Some "MultiPolygon"] ∧ style = polygon_style)
  | TileLayer _ | LayerControl => False
  end.

(** A map as the script displays them: zoom 10, and as children the base
    tile layer first, then the layers of the loop, then one layer control. *)
Definition well_formed_map (m : FoliumMap) : Prop :=
  map_zoom_start m = 10%Z ∧
  ∃ layers, map_children m = (base_children ++ layers ++ [LayerControl])%list ∧
            Forall proper_layer layers.

Definition shows_proper_map (e : event) : Prop :=
  match e with
  | FoliumStatic m => well_formed_map m
  | _ => True
  end.

End Vocabulary.

(** * Properties *)

(** ** Substring test *)

Lemma append_cons (c : ascii) (s t : string) : String c s +:+ t = String c (s +:+ t).
Proof. reflexivity. Qed.

Lemma append_nil (t : string) : "" +:+ t = t.
Proof. reflexivity. Qed.

Lemma prefix_spec (s1 s2 : string) :
  String.prefix s1 s2 = true ↔ ∃ post, s2 = s1 +:+ post.
Proof.
  revert s1. induction s2 as [|b s2 IH]; intros [|a s1]; simpl.
  - split; [intros _; by exists "" | done].
  - split; [done | intros [post Hpost]; discriminate].
  - split; [intros _; by exists (String b s2) | done].
  - destruct (ascii_dec a b) as [->|Hne].
    + rewrite IH. split; intros [post Hpost]; exists post;
        rewrite append_cons in *; congruence.
    + split; [done | intros [post Hpost]; rewrite append_cons in Hpost; congruence].
Qed.

Lemma contains_unfold (needle hay : string) :
  contains needle hay =
  String.prefix needle hay ||
  match hay with
  | EmptyString => false
  | String _ hay' => contains needle hay'
  end.
Proof. by destruct hay. Qed.

(** [contains] decides the existence of an occurrence of the needle. *)
Lemma contains_spec (needle hay : string) :
  contains needle hay = true ↔ ∃ pre post, hay = pre +:+ needle +:+ post.
Proof.
  induction hay as [|c hay IH]; rewrite contains_unfold, orb_true_iff, prefix_spec.
  - split.
    + intros [[post Hpost]|?]; [by exists "", post | done].
    + intros (pre & post & Hocc). left.
      destruct pre; [by exists post | discriminate].
  - rewrite IH. split.
    + intros [[post Hpost]|(pre & post & Hocc)].
      * by exists "", post.
      * exists (String c pre), post. by rewrite append_cons, Hocc.
    + intros (pre & post & Hocc). destruct pre as [|c' pre].
      * left. by exists post.
      * right. exists pre, post. rewrite append_cons in Hocc. congruence.
Qed.

Section Properties.
Context `{GeoLib} `{Session}.

(** ** Running a computation *)

Lemma bind_run {A B} (m : M A) (f : A → M B) (w : world) :
  (m ≫= f) w =
  match m w with
  | (Ok a, w') => f a w'
  | (Raise e, w') => (Raise e, w')
  end.
Proof. reflexivity. Qed.

(** ** Boolean indexing is filtering *)

Lemma boolean_index_fmap (P : Row → Prop) `{!∀ r, Decision (P r)} (rows : list Row) :
  boolean_index rows ((λ r, bool_decide (P r)) <$> rows) = filter P rows.
Proof.
  induction rows as [|r rows IH]; [done|].
  rewrite fmap_cons, filter_cons. simpl. rewrite IH.
  by destruct (decide (P r)) as [HP|HP];
    [rewrite bool_decide_eq_true_2 | rewrite bool_decide_eq_false_2].
Qed.

Lemma filterByTypes_rows (gdf : GeoDataFrame) (T : list (option string)) :
  gdf_rows (filterByTypes gdf T) =
  filter (λ r, geom_type (row_geometry r) ∈ T) (gdf_rows gdf).
Proof.
  unfold filterByTypes, getitem_mask, geometry_types_of, isin. simpl.
  rewrite <- list_fmap_compose. apply (boolean_index_fmap _).
Qed.

Lemma series_eq_Some (t' : option string) (s : string) :
  series_eq t' (Some s) = bool_decide (t' = Some s).
Proof.
  destruct t' as [a|]; simpl; [|done].
  destruct (decide (a = s)) as [->|Hne].
  - by rewrite !bool_decide_eq_true_2.
  - rewrite !bool_decide_eq_false_2; [done | congruence | done].
Qed.

Lemma select_type_rows (gdf : GeoDataFrame) (s : string) :
  gdf_rows (select_type gdf (Some s)) =
  filter (λ r, geom_type (row_geometry r) = Some s) (gdf_rows gdf).
Proof.
  unfold select_type, getitem_mask, geometry_types_of. simpl.
  rewrite <- list_fmap_compose.
  rewrite <- (boolean_index_fmap (λ r, geom_type (row_geometry r) = Some s)).
  f_equal. apply list_fmap_ext. intros i r _. apply series_eq_Some.
Qed.

(** ** [unique] *)

Lemma unique_from_elem (seen l : list (option string)) (t : option string) :
  t ∈ unique_from seen l ↔ t ∈ l ∧ t ∉ seen.
Proof.
  revert seen. induction l as [|x l IH]; intros seen; simpl.
  - rewrite !elem_of_nil. tauto.
  - case_bool_decide as Hx.
    + rewrite IH, elem_of_cons. split; [tauto|].
      intros [[->|?] ?]; tauto.
    + rewrite !elem_of_cons, IH, elem_of_cons. split.
      * intros [->|[? ?]]; [tauto|]. split; [tauto|]. tauto.
      * intros [[->|?] ?]; [tauto|].
        destruct (decide (t = x)) as [->|?]; [tauto|]. right. tauto.
Qed.

Lemma unique_from_NoDup (seen l : list (option string)) :
  NoDup (unique_from seen l).
Proof.
  revert seen. induction l as [|x l IH]; intros seen; simpl.
  - constructor.
  - case_bool_decide; [apply IH|].
    apply NoDup_cons. split; [|apply IH].
    rewrite unique_from_elem, elem_of_cons. tauto.
Qed.

Lemma unique_elem (l : list (option string)) (t : option string) :
  t ∈ unique l ↔ t ∈ l.
Proof. unfold unique. rewrite unique_from_elem, elem_of_nil. tauto. Qed.

(** ** Filtering by geometry type *)

Lemma filter_twice {A} (P : A → Prop) `{!∀ x, Decision (P x)} (l : list A) :
  filter P (filter P l) = filter P l.
Proof.
  induction l as [|x l IH]; [done|].
  rewrite filter_cons. destruct (decide (P x)) as [HP|HP]; [|done].
  by rewrite filter_cons, decide_True, IH.
Qed.

(** C6: the filter keeps exactly the rows whose geometry type is one of the
    selected types, in their original relative order (and leaves the CRS
    of the frame alone). *)
Theorem filterByTypes_keeps_selected_in_order
    (gdf : GeoDataFrame) (T : list (option string)) :
  gdf_rows (filterByTypes gdf T) =
    filter (λ r, geom_type (row_geometry r) ∈ T) (gdf_rows gdf) ∧
  (∀ r, r ∈ gdf_rows (filterByTypes gdf T) ↔
        r ∈ gdf_rows gdf ∧ geom_type (row_geometry r) ∈ T) ∧
  sublist (gdf_rows (filterByTypes gdf T)) (gdf_rows gdf) ∧
  gdf_crs (filterByTypes gdf T) = gdf_crs gdf.
Proof.
  rewrite filterByTypes_rows. split; [done|]. split; [|split].
  - intros r. rewrite list_elem_of_filter. tauto.
  - apply sublist_filter.
  - reflexivity.
Qed.

(** C7: filtering an already filtered frame with the same types changes
    nothing. *)
Theorem filterByTypes_idempotent (gdf : GeoDataFrame) (T : list (option string)) :
  filterByTypes (filterByTypes gdf T) T = filterByTypes gdf T.
Proof.
  assert (Hrows : gdf_rows (filterByTypes (filterByTypes gdf T) T) =
                  gdf_rows (filterByTypes gdf T)).
  { by rewrite (filterByTypes_rows (filterByTypes gdf T)), filterByTypes_rows,
      filter_twice. }
  destruct (filterByTypes (filterByTypes gdf T) T) as [rows2 crs2] eqn:E2.
  destruct (filterByTypes gdf T) as [rows1 crs1] eqn:E1.
  simpl in Hrows. subst rows2. f_equal.
  change crs2 with (gdf_crs (mkGdf rows1 crs2)). rewrite <- E2.
  change crs1 with (gdf_crs (mkGdf rows1 crs1)). by rewrite <- E1.
Qed.

(** C4: with nothing selected the filter leaves no row, and the filter
    stage of the script shows one warning and does nothing else: no
    bounds are asked for, no map is built, no error is shown. *)
Theorem empty_selection_warns (gdf : GeoDataFrame) (w : world) :
  gdf_rows (filterByTypes gdf []) = [] ∧
  filter_and_render gdf [] w =
    (Ok (), logged w [StWarning "Please select at least one geometry type to display"]).
Proof.
  split; [|reflexivity].
  rewrite filterByTypes_rows. induction (gdf_rows gdf) as [|r rows IH]; [done|].
  rewrite filter_cons, decide_False; [done | apply not_elem_of_nil].
Qed.

(** ** Geometry column detection *)

Lemma List_filter_sublist {A} (f : A → bool) (l : list A) :
  sublist (List.filter f l) l.
Proof.
  induction l as [|x l IH]; simpl; [constructor|].
  destruct (f x); by constructor.
Qed.

Lemma string_app_assoc (s t u : string) : (s +:+ t) +:+ u = s +:+ (t +:+ u).
Proof.
  induction s as [|c s IH]; [by rewrite !append_nil|].
  by rewrite !append_cons, IH.
Qed.

Lemma lower_app (s t : string) : lower (s +:+ t) = lower s +:+ lower t.
Proof.
  induction s as [|c s IH]; [by rewrite !append_nil|].
  rewrite append_cons. simpl. by rewrite append_cons, IH.
Qed.

Lemma lower_app_inv (s a b : string) :
  lower s = a +:+ b → ∃ s1 s2, s = s1 +:+ s2 ∧ lower s1 = a ∧ lower s2 = b.
Proof.
  revert s. induction a as [|c a IH]; intros s.
  - rewrite append_nil. intros Hs. exists "", s. by rewrite append_nil.
  - rewrite append_cons. destruct s as [|c' s]; simpl; [done|].
    intros [= Hc Hs]. destruct (IH s Hs) as (s1 & s2 & -> & Hs1 & Hs2).
    exists (String c' s1), s2. rewrite append_cons. simpl. by rewrite Hc, Hs1.
Qed.

(** [lower_ascii] maps a capital to its lower-case letter, 32 codes up,
    and nothing else to that letter. *)
Lemma lower_ascii_same_letter (t c : ascii) :
  lower_ascii c = t → same_letter t c.
Proof.
  unfold lower_ascii, same_letter. pose proof (nat_ascii_bounded c) as Hc.
  destruct (65 <=? nat_of_ascii c)%nat eqn:Hlo; simpl; [|by left].
  destruct (nat_of_ascii c <=? 90)%nat eqn:Hhi; simpl; [|by left].
  apply Nat.leb_le in Hlo, Hhi. intros <-. right.
  rewrite nat_ascii_embedding by lia. lia.
Qed.

Lemma same_letter_lower_ascii (t c : ascii) :
  lower_ascii t = t → same_letter t c → lower_ascii c = t.
Proof.
  intros Ht [->|[Hletter Hcode]]; [done|].
  unfold lower_ascii.
  assert (Hlo : (65 <=? nat_of_ascii c)%nat = true) by (apply Nat.leb_le; lia).
  assert (Hhi : (nat_of_ascii c <=? 90)%nat = true) by (apply Nat.leb_le; lia).
  rewrite Hlo, Hhi. simpl. rewrite Hcode. apply ascii_nat_embedding.
Qed.

Lemma lower_case_variant (token s : string) :
  lower s = token → case_variant token s.
Proof.
  revert token. induction s as [|c s IH]; intros token <-; simpl; [done|].
  split; [by apply lower_ascii_same_letter | by apply IH].
Qed.

Lemma case_variant_lower (token s : string) :
  lower token = token → case_variant token s → lower s = token.
Proof.
  revert s. induction token as [|t token IH]; intros [|c s]; simpl; try done.
  intros [= Ht Htoken] [Hc Hs]. f_equal.
  - by apply same_letter_lower_ascii.
  - by apply IH.
Qed.

(** The test of line 31 for one token: it occurs in the name in some
    mixture of cases. *)
Lemma contains_lower (token col : string) :
  lower token = token →
  contains token (lower col) = true ↔
  ∃ pre mid post, col = pre +:+ mid +:+ post ∧ case_variant token mid.
Proof.
  intros Htoken. rewrite contains_spec. split.
  - intros (pre' & post' & Hcol).
    apply lower_app_inv in Hcol as (pre & rest & -> & _ & Hrest).
    apply lower_app_inv in Hrest as (mid & post & -> & Hmid & _).
    exists pre, mid, post. split; [done|]. by apply lower_case_variant.
  - intros (pre & mid & post & -> & Hmid).
    exists (lower pre), (lower post).
    by rewrite !lower_app, (case_variant_lower token mid).
Qed.

Lemma geometry_col_test (col : string) :
  contains "geom" (lower col) || contains "geometry" (lower col) = true ↔
  name_matches col.
Proof.
  rewrite orb_true_iff, !contains_lower by done. unfold name_matches. split.
  - intros [(pre & mid & post & Hcol & Hmid)|(pre & mid & post & Hcol & Hmid)].
    + exists "geom", pre, mid, post. split; [apply list_elem_of_here | done].
    + exists "geometry", pre, mid, post.
      split; [apply list_elem_of_further, list_elem_of_here | done].
  - intros (token & pre & mid & post & Htoken & Hcol & Hmid).
    apply elem_of_cons in Htoken as [->|Htoken]; [left; eauto|].
    apply list_elem_of_singleton in Htoken as ->. right; eauto.
Qed.

(** The comprehension of line 31 on labels that are all strings, and on
    labels the first of which that is not a string is at some place. *)
Lemma columns_where_strings (test : string → bool) (names : list string) :
  columns_where test (StrLabel <$> names) =
    Ok (List.filter (λ name, test (lower name)) names).
Proof.
  induction names as [|name names IH]; [done|].
  rewrite fmap_cons. simpl. rewrite IH. simpl. by destruct (test (lower name)).
Qed.

Lemma columns_where_other (test : string → bool) (names : list string)
    (raises : exn) (rest : list column_label) :
  columns_where test ((StrLabel <$> names) ++ OtherLabel raises :: rest)%list =
    Raise raises.
Proof.
  induction names as [|name names IH]; [done|].
  rewrite fmap_cons. simpl. by rewrite IH.
Qed.

Lemma column_labels_cases (columns : list column_label) :
  (∃ names, columns = StrLabel <$> names) ∨
  (∃ names raises rest,
     columns = ((StrLabel <$> names) ++ OtherLabel raises :: rest)%list).
Proof.
  induction columns as [|col columns IH]; [left; by exists []|].
  destruct col as [name|raises]; [|right; by exists [], raises, columns].
  destruct IH as [(names & ->)|(names & raises & rest & ->)].
  - left. by exists (name :: names).
  - right. by exists (name :: names), raises, rest.
Qed.

Lemma geometry_cols_of_strings (df : DataFrame) (names : list string) :
  df_columns df = StrLabel <$> names →
  ∃ geometry_cols,
    geometry_cols_of df = Ok geometry_cols ∧
    (∀ col, col ∈ geometry_cols ↔ col ∈ names ∧ name_matches col) ∧
    sublist geometry_cols names.
Proof.
  intros Hnames. unfold geometry_cols_of. rewrite Hnames, columns_where_strings.
  eexists. split; [done|]. split; [|apply List_filter_sublist].
  intros col. rewrite !list_elem_of_In, filter_In, geometry_col_test. tauto.
Qed.

Lemma geometry_cols_of_elem (df : DataFrame) (geometry_cols : list string) (col : string) :
  geometry_cols_of df = Ok geometry_cols → col ∈ geometry_cols →
  StrLabel col ∈ df_columns df ∧ name_matches col.
Proof.
  intros Hcols Hcol.
  destruct (column_labels_cases (df_columns df))
    as [(names & Hnames)|(names & raises & rest & Hnames)].
  - destruct (geometry_cols_of_strings df names Hnames) as (cols & Hcols' & Hiff & _).
    assert (cols = geometry_cols) as -> by congruence.
    destruct (proj1 (Hiff col) Hcol) as [Hin Hmatch]. split; [|done].
    rewrite Hnames. apply list_elem_of_fmap. by exists col.
  - unfold geometry_cols_of in Hcols. by rewrite Hnames, columns_where_other in Hcols.
Qed.

Lemma resolve_and_process_raises (df : DataFrame) (names : list string)
    (raises : exn) (rest : list column_label) (w : world) :
  df_columns df = ((StrLabel <$> names) ++ OtherLabel raises :: rest)%list →
  resolve_and_process df w = (Raise raises, w).
Proof.
  intros Hnames. unfold resolve_and_process, geometry_cols_of.
  rewrite bind_run. unfold lift. by rewrite Hnames, columns_where_other.
Qed.

(** ** CRS normalisation *)

(** C5: the frame is handed to [to_crs] with target EPSG:4326 exactly when
    the CRS is known and differs from EPSG:4326; otherwise (CRS unknown, or
    equal to EPSG:4326) no library call is made and the very same frame
    comes back. *)
Theorem normalizeCRS_reprojects_iff_needed
    (gdf filtered_gdf : GeoDataFrame) (w : world) :
  ((∃ crs, gdf_crs gdf = Some crs ∧ crs_ne crs "EPSG:4326" = true) ∧
   normalizeCRS gdf filtered_gdf w =
     (to_crs filtered_gdf "EPSG:4326",
      logged w [CallToCrs filtered_gdf "EPSG:4326"]))
  ∨
  ((gdf_crs gdf = None ∨
    ∃ crs, gdf_crs gdf = Some crs ∧ crs_ne crs "EPSG:4326" = false) ∧
   normalizeCRS gdf filtered_gdf w = (Ok filtered_gdf, w)).
Proof.
  unfold normalizeCRS. destruct (gdf_crs gdf) as [crs|]; [|right; eauto].
  destruct (crs_ne crs "EPSG:4326") eqn:Hne.
  - left. split; [eauto|]. rewrite bind_run. simpl.
    unfold lift, logged. by destruct (to_crs filtered_gdf "EPSG:4326").
  - right. eauto.
Qed.

(** ** Map centre *)


(** ** The temporary file *)

Lemma keeps_fs_ret {A} (a : A) : keeps_fs (mret a : M A).
Proof. by intros w. Qed.

Lemma keeps_fs_emit (e : event) : keeps_fs (emit e).
Proof. by intros w. Qed.

Lemma keeps_fs_lift {A} (r : result A) : keeps_fs (lift r).
Proof. by intros w. Qed.

Lemma keeps_fs_read_bytes (path : string) : keeps_fs (read_bytes path).
Proof. intros w. unfold read_bytes. by destruct (fs w !! path). Qed.

Lemma keeps_fs_bind {A B} (m : M A) (f : A → M B) :
  keeps_fs m → (∀ a, keeps_fs (f a)) → keeps_fs (m ≫= f).
Proof.
  intros Hm Hf w. rewrite bind_run. specialize (Hm w).
  destruct (m w) as [[a|e] w1]; simpl in *; [|done].
  by rewrite Hf.
Qed.

Lemma keeps_fs_try_except {A} (body : M A) (handler : exn → M A) :
  keeps_fs body → (∀ e, keeps_fs (handler e)) → keeps_fs (try_except body handler).
Proof.
  intros Hbody Hhandler w. unfold try_except. specialize (Hbody w).
  destruct (body w) as [[a|e] w1]; simpl in *; [done|].
  by rewrite Hhandler.
Qed.

Create HintDb keeps_fs_db.
#[local] Hint Resolve keeps_fs_ret keeps_fs_emit keeps_fs_lift keeps_fs_read_bytes
  : keeps_fs_db.

(** Goes through a definition built from the combinators above. *)
Ltac keeps_fs_steps :=
  repeat first
    [ match goal with |- ∀ _, _ => intro end
    | solve [auto 1 with keeps_fs_db]
    | apply keeps_fs_bind
    | apply keeps_fs_try_except
    | match goal with
      | |- keeps_fs (match ?x with _ => _ end) => destruct x
      end ].

Lemma keeps_fs_decode_geometry (df : DataFrame) (geometry_col : string) :
  keeps_fs (decode_geometry df geometry_col).
Proof.
  unfold decode_geometry, iloc0, st_error. keeps_fs_steps.
Qed.

Lemma keeps_fs_show_info (df : DataFrame) (gdf : GeoDataFrame) :
  keeps_fs (show_info df gdf).
Proof. unfold show_info, st_subheader, st_write. keeps_fs_steps. Qed.

Lemma keeps_fs_filter_and_render (gdf : GeoDataFrame) (selected_types : list (option string)) :
  keeps_fs (filter_and_render gdf selected_types).
Proof.
  unfold filter_and_render, render_map, normalizeCRS, st_subheader, st_error,
    st_warning.
  keeps_fs_steps.
Qed.

#[local] Hint Resolve keeps_fs_decode_geometry keeps_fs_show_info
  keeps_fs_filter_and_render : keeps_fs_db.

Lemma keeps_fs_process (df : DataFrame) (geometry_col : string) :
  keeps_fs (process df geometry_col).
Proof.
  unfold process, show_and_render, st_multiselect, st_subheader. keeps_fs_steps.
Qed.

#[local] Hint Resolve keeps_fs_process : keeps_fs_db.

Lemma keeps_fs_resolve_and_process (df : DataFrame) :
  keeps_fs (resolve_and_process df).
Proof.
  unfold resolve_and_process, select_geometry_col, getitem0, st_selectbox, st_error.
  keeps_fs_steps.
Qed.

(** A handler that only reports the exception always completes. *)
Lemma try_except_reported (body : M unit) (msg : exn → string) (w : world) :
  (try_except body (λ e, st_error (msg e)) w).1 = Ok ().
Proof.
  unfold try_except. by destruct (body w) as [[[]|e] w1].
Qed.

Lemma handle_upload_run (payload : list Byte.byte) (w : world) :
  let tmp_path := tmp_name (fs w) in
  (handle_upload payload w).1 = Ok () ∧
  fs (handle_upload payload w).2 = delete tmp_path (fs w).
Proof.
  intros tmp_path. unfold handle_upload. rewrite bind_run.
  unfold NamedTemporaryFile_write. fold tmp_path.
  set (w1 := mkWorld (<[tmp_path:=payload]> (fs w)) (trace w)).
  set (body := try_except _ _).
  assert (Hres : (body w1).1 = Ok ()) by apply try_except_reported.
  assert (Hfs : fs (body w1).2 = fs w1).
  { apply keeps_fs_try_except.
    - apply keeps_fs_bind; [|apply keeps_fs_resolve_and_process].
      unfold pq_read_table. keeps_fs_steps.
    - intros e. apply keeps_fs_emit. }
  unfold try_finally, os_unlink.
  destruct (body w1) as [r w2]. simpl in Hres, Hfs. subst r.
  rewrite Hfs. simpl. rewrite lookup_insert_eq. simpl.
  split; [done|]. apply delete_insert_eq.
Qed.

(** C8: whatever the libraries and the user do, a pass completes, and the
    temporary file it wrote the upload to (which did hold the uploaded
    bytes once written) is not on disk afterwards; everything else on
    disk is as before.  Without an upload the disk is untouched. *)
Theorem temporary_file_is_removed (fs0 : gmap string (list Byte.byte)) :
  (run_pass fs0).1 = Ok () ∧
  match uploaded_file with
  | Some payload =>
      let tmp_path := tmp_name fs0 in
      fs (NamedTemporaryFile_write payload (mkWorld fs0 [])).2 !! tmp_path = Some payload ∧
      fs (run_pass fs0).2 !! tmp_path = None ∧
      fs (run_pass fs0).2 = delete tmp_path fs0
  | None => fs (run_pass fs0).2 = fs0
  end.
Proof.
  unfold run_pass, main, st_file_uploader, st_write, st_info.
  unfold emit at 1 2 3 4. unfold mbind, M_bind, mret, M_ret. simpl.
  destruct uploaded_file as [payload|].
  - set (w := mkWorld fs0 _).
    destruct (handle_upload_run payload w) as [Hres Hfs].
    destruct (handle_upload payload w) as [r w']. simpl in *. subst r. simpl.
    rewrite Hfs. repeat split.
    + apply lookup_insert_eq.
    + apply lookup_delete_eq.
  - done.
Qed.

(** ** What a pass appends to the trace *)

Lemma produces_ret {A} (a : A) (P : event → Prop) (Q : A → Prop) :
  Q a → produces (mret a : M A) P Q.
Proof.
  intros HQ w. exists []. rewrite app_nil_r. repeat split; [constructor|].
  by intros a' [= <-].
Qed.

Lemma produces_emit (e : event) (P : event → Prop) (Q : () → Prop) :
  P e → Q () → produces (emit e) P Q.
Proof.
  intros HP HQ w. exists [e]. repeat split; [by repeat constructor|].
  by intros [] _.
Qed.

Lemma produces_lift {A} (r : result A) (P : event → Prop) (Q : A → Prop) :
  (∀ a, r = Ok a → Q a) → produces (lift r) P Q.
Proof.
  intros HQ w. exists []. rewrite app_nil_r. repeat split; [constructor|done].
Qed.

Lemma produces_read_bytes (path : string) (P : event → Prop) :
  produces (read_bytes path) P (λ _, True).
Proof.
  intros w. exists []. rewrite app_nil_r. unfold read_bytes.
  destruct (fs w !! path); repeat split; constructor.
Qed.

Lemma produces_bind {A B} (m : M A) (f : A → M B)
    (P : event → Prop) (Q : A → Prop) (R : B → Prop) :
  produces m P Q → (∀ a, Q a → produces (f a) P R) → produces (m ≫= f) P R.
Proof.
  intros Hm Hf w. rewrite bind_run. destruct (Hm w) as (l1 & Htrace1 & HP1 & HQ).
  destruct (m w) as [[a|e] w1]; simpl in *.
  - destruct (Hf a (HQ a eq_refl) w1) as (l2 & Htrace2 & HP2 & HR).
    exists (l1 ++ l2)%list. rewrite Htrace2, Htrace1, app_assoc.
    repeat split; [by apply Forall_app|done].
  - exists l1. repeat split; done.
Qed.

Lemma produces_try_except {A} (body : M A) (handler : exn → M A)
    (P : event → Prop) (Q : A → Prop) :
  produces body P Q → (∀ e, produces (handler e) P Q) →
  produces (try_except body handler) P Q.
Proof.
  intros Hbody Hhandler w. unfold try_except.
  destruct (Hbody w) as (l1 & Htrace1 & HP1 & HQ).
  destruct (body w) as [[a|e] w1]; simpl in *.
  - exists l1. repeat split; done.
  - destruct (Hhandler e w1) as (l2 & Htrace2 & HP2 & HR).
    exists (l1 ++ l2)%list. rewrite Htrace2, Htrace1, app_assoc.
    repeat split; [by apply Forall_app|done].
Qed.

Lemma produces_weaken {A} (m : M A) (P P' : event → Prop) (Q Q' : A → Prop) :
  produces m P Q → (∀ e, P e → P' e) → (∀ a, Q a → Q' a) → produces m P' Q'.
Proof.
  intros Hm HP HQ w. destruct (Hm w) as (l & Htrace & Hl & Hres).
  exists l. repeat split; [done|by eapply Forall_impl|auto].
Qed.

(** ** The frame the envelope is computed over *)

Lemma type_present (gdf : GeoDataFrame) (t : option string) :
  t ∈ unique (geometry_types_of gdf) ↔
  ∃ r, r ∈ gdf_rows gdf ∧ geom_type (row_geometry r) = t.
Proof.
  rewrite unique_elem. unfold geometry_types_of. rewrite list_elem_of_fmap.
  split; intros (r & ? & ?); exists r; done.
Qed.

Lemma selection_keeps_rows (gdf : GeoDataFrame) (selected : list (option string))
    (t : option string) :
  selected ⊆ unique (geometry_types_of gdf) → t ∈ selected →
  ∃ r, r ∈ gdf_rows (filterByTypes gdf selected) ∧ geom_type (row_geometry r) = t.
Proof.
  intros Hsub Ht. destruct (proj1 (type_present gdf t) (Hsub t Ht)) as (r & Hr & Htype).
  exists r. split; [|done].
  rewrite filterByTypes_rows, list_elem_of_filter. by rewrite Htype.
Qed.

Section Envelope.
Hypothesis widget_contract :
  ∀ label options default, multiselect_value label options default ⊆ options.
Hypothesis to_crs_keeps_rows :
  ∀ f target f', to_crs f target = Ok f' → length (gdf_rows f') = length (gdf_rows f).

Variable P : event → Prop.
Hypothesis P_plain : ∀ e, plain e → P e.
Hypothesis P_bounds : ∀ f, gdf_rows f ≠ [] → P (CallTotalBounds f).

(** Goes through a definition that emits plain events only. *)
Ltac plain_steps :=
  repeat first
    [ match goal with |- ∀ _, _ => intro end
    | apply produces_ret; exact I
    | apply produces_emit; [apply P_plain; exact I | exact I]
    | apply produces_lift; intros; exact I
    | apply produces_read_bytes
    | apply produces_bind with (Q := λ _, True)
    | apply produces_try_except
    | match goal with
      | |- produces (match ?x with _ => _ end) _ _ => destruct x
      end ].

Lemma produces_decode_geometry (df : DataFrame) (geometry_col : string) :
  produces (decode_geometry df geometry_col) P (λ _, True).
Proof. unfold decode_geometry, iloc0, st_error. plain_steps. Qed.

Lemma produces_show_info (df : DataFrame) (gdf : GeoDataFrame) :
  produces (show_info df gdf) P (λ types, types = unique (geometry_types_of gdf)).
Proof.
  unfold show_info, st_subheader, st_write. cbv zeta.
  do 8 (apply produces_bind with (Q := λ _, True); [plain_steps|intros ? _]).
  by apply produces_ret.
Qed.

Lemma produces_normalizeCRS (gdf filtered_gdf : GeoDataFrame) :
  gdf_rows filtered_gdf ≠ [] →
  produces (normalizeCRS gdf filtered_gdf) P (λ f, gdf_rows f ≠ []).
Proof.
  intros Hrows. unfold normalizeCRS.
  destruct (gdf_crs gdf) as [crs|]; [|by apply produces_ret].
  destruct (crs_ne crs "EPSG:4326"); [|by apply produces_ret].
  apply produces_bind with (Q := λ _, True); [plain_steps|intros ? _].
  apply produces_lift. intros f' Hf'. apply to_crs_keeps_rows in Hf'.
  destruct (gdf_rows f'), (gdf_rows filtered_gdf); done.
Qed.

Lemma produces_render_map (gdf filtered_gdf : GeoDataFrame)
    (selected_types : list (option string)) :
  gdf_rows filtered_gdf ≠ [] →
  produces (render_map gdf filtered_gdf selected_types) P (λ _, True).
Proof.
  intros Hrows. unfold render_map, st_subheader.
  eapply produces_bind; [by apply produces_normalizeCRS|].
  intros f' Hf'. apply produces_bind with (Q := λ _, True).
  - apply produces_emit; [by apply P_bounds | exact I].
  - plain_steps.
Qed.

Lemma produces_filter_and_render (gdf : GeoDataFrame) (selected : list (option string)) :
  selected ⊆ unique (geometry_types_of gdf) →
  produces (filter_and_render gdf selected) P (λ _, True).
Proof.
  intros Hsub. unfold filter_and_render, st_warning, st_error.
  destruct selected as [|t selected]; [plain_steps|].
  apply produces_try_except; [|plain_steps].
  apply produces_render_map.
  destruct (selection_keeps_rows gdf (t :: selected) t Hsub) as (r & Hr & _);
    [set_solver|].
  intros Hnil. rewrite Hnil in Hr. by apply elem_of_nil in Hr.
Qed.

Lemma produces_show_and_render (df : DataFrame) (gdf : GeoDataFrame) :
  (∀ label, let types := unique (geometry_types_of gdf) in
            P (StMultiselect label types types)) →
  produces (show_and_render df gdf) P (λ _, True).
Proof.
  intros P_select. unfold show_and_render, st_subheader, st_multiselect.
  eapply produces_bind; [apply produces_show_info|]. intros types ->.
  apply produces_bind with (Q := λ _, True); [plain_steps|intros ? _].
  apply produces_bind
    with (Q := λ selected, selected ⊆ unique (geometry_types_of gdf)).
  - apply produces_bind with (Q := λ _, True).
    + apply produces_emit; [apply P_select | exact I].
    + intros ? _. apply produces_ret. apply widget_contract.
  - intros selected Hsub. by apply produces_filter_and_render.
Qed.

Hypothesis P_select : ∀ label options default, P (StMultiselect label options default).

Lemma produces_process (df : DataFrame) (geometry_col : string) :
  produces (process df geometry_col) P (λ _, True).
Proof.
  unfold process. eapply produces_bind; [apply produces_decode_geometry|].
  intros gdf _. apply produces_show_and_render. intros label types. apply P_select.
Qed.

Lemma produces_resolve_and_process (df : DataFrame) :
  produces (resolve_and_process df) P (λ _, True).
Proof.
  unfold resolve_and_process, st_error.
  apply produces_bind with (Q := λ _, True); [plain_steps|].
  intros [|col cols] _; [plain_steps|].
  apply produces_bind with (Q := λ _, True).
  - unfold select_geometry_col, st_selectbox, getitem0.
    destruct (1 <? length (col :: cols))%nat; plain_steps.
  - intros geometry_col _. apply produces_try_except; [|plain_steps].
    apply produces_process.
Qed.

Lemma produces_handle_upload (payload : list Byte.byte) :
  produces (handle_upload payload) P (λ _, True).
Proof.
  intros w. unfold handle_upload. rewrite bind_run.
  unfold NamedTemporaryFile_write, try_finally, os_unlink.
  set (w1 := mkWorld _ (trace w)). set (body := try_except _ _).
  assert (Hbody : produces body P (λ _, True)).
  { apply produces_try_except; [|unfold st_error; plain_steps].
    apply produces_bind with (Q := λ _, True);
      [unfold pq_read_table; plain_steps|].
    intros df _. apply produces_resolve_and_process. }
  destruct (Hbody w1) as (l & Htrace & Hl & _). exists l.
  destruct (body w1) as [r w2]. simpl in *.
  by destruct (fs w2 !! tmp_name (fs w)).
Qed.

Lemma produces_main : produces main P (λ _, True).
Proof.
  unfold main, st_write, st_file_uploader, st_info.
  do 3 (apply produces_bind with (Q := λ _, True); [plain_steps|intros ? _]).
  apply produces_bind with (Q := λ _, True); [plain_steps|intros uploaded _].
  apply produces_bind with (Q := λ _, True); [|plain_steps].
  destruct uploaded as [payload|]; [apply produces_handle_upload | plain_steps].
Qed.

End Envelope.

(** C10: given that the multiselect widget returns a sub-selection of its
    options and that reprojection keeps the number of rows: the selectable
    types are exactly the distinct geometry types of the decoded frame,
    every selected type keeps at least one row in the filtered frame, the
    stage after decoding offers exactly those types, and in a whole pass
    the bounding envelope is only ever asked of a frame that has rows. *)
Theorem envelope_only_over_nonempty_frame
    (widget_contract :
       ∀ label options default, multiselect_value label options default ⊆ options)
    (to_crs_keeps_rows :
       ∀ f target f', to_crs f target = Ok f' →
                      length (gdf_rows f') = length (gdf_rows f)) :
  (∀ gdf t, t ∈ unique (geometry_types_of gdf) ↔
            ∃ r, r ∈ gdf_rows gdf ∧ geom_type (row_geometry r) = t) ∧
  (∀ gdf, NoDup (unique (geometry_types_of gdf))) ∧
  (∀ gdf selected t,
     selected ⊆ unique (geometry_types_of gdf) → t ∈ selected →
     ∃ r, r ∈ gdf_rows (filterByTypes gdf selected) ∧
          geom_type (row_geometry r) = t) ∧
  (∀ df gdf, produces (show_and_render df gdf) (offers_types_of gdf) (λ _, True)) ∧
  (∀ fs0 f, CallTotalBounds f ∈ trace (run_pass fs0).2 → gdf_rows f ≠ []).
Proof.
  split; [apply type_present|]. split; [intros; apply unique_from_NoDup|].
  split; [apply selection_keeps_rows|]. split.
  - intros df gdf. apply produces_show_and_render; try done.
    by intros [].
  - intros fs0 f Hf.
    assert (Hmain : produces main bounds_on_rows (λ _, True)).
    { apply produces_main; try done. by intros []. }
    destruct (Hmain (mkWorld fs0 [])) as (l & Htrace & Hl & _).
    unfold run_pass in Hf. rewrite Htrace in Hf. simpl in Hf.
    rewrite Forall_forall in Hl. apply (Hl _ Hf).
Qed.

(** ** Decoding cascade and point layers, for any library *)

Lemma decode_stops_when_constructor_raises
    (df : DataFrame) (geometry_col : string) (e : exn) (w : world) :
  GeoDataFrame_of_column df geometry_col = Raise e →
  decode_geometry df geometry_col w = (Raise e, logged w [CallGeoDataFrame geometry_col]).
Proof.
  intros Hraise. unfold decode_geometry, lift, emit, mbind, M_bind. simpl.
  by rewrite Hraise.
Qed.

Lemma decode_failure_returns_first_frame
    (df : DataFrame) (geometry_col : string) (gdf : GeoDataFrame)
    (r : Row) (rows : list Row) (e1 e2 : exn) (w : world) :
  GeoDataFrame_of_column df geometry_col = Ok gdf →
  gdf_rows gdf = r :: rows →
  isinstance_GeoSeries (row_geometry r) = false →
  GeoDataFrame_from_wkt df geometry_col = Raise e1 →
  GeoDataFrame_from_wkb df geometry_col = Raise e2 →
  decode_geometry df geometry_col w =
    (Ok gdf,
     logged w
       [CallGeoDataFrame geometry_col; CallFromWkt geometry_col;
        CallFromWkb geometry_col;
        StError "Could not convert the geometry column to a valid geometry. Please check your data."]).
Proof.
  intros Hctor Hrows Hinst Hwkt Hwkb.
  unfold decode_geometry, iloc0, try_except, st_error, lift, emit, mbind, M_bind,
    mret, M_ret, logged.
  simpl. rewrite Hctor, Hrows. simpl. rewrite Hinst. simpl.
  rewrite Hwkt, Hwkb. simpl. by rewrite <- !app_assoc.
Qed.

Lemma markers_of_one_per_row (rows : list Row) (markers : list Marker) :
  markers_of rows = Ok markers →
  marker_popup <$> markers = (λ r, "ID: " +:+ str_label (row_idx r)) <$> rows.
Proof.
  revert markers. induction rows as [|r rows IH]; intros markers; simpl.
  - by intros [= <-].
  - unfold getattr_geometry.
    destruct (row_labelled_geometry r) as [value|]; simpl; [|done].
    destruct (geom_y value); simpl; [|done].
    destruct (geom_x value); simpl; [|done].
    destruct (markers_of rows) as [ms|]; simpl; [|done].
    intros [= <-]. rewrite !fmap_cons. f_equal. by apply IH.
Qed.

Lemma point_rows_get_a_marker_cluster
    (filtered_gdf : GeoDataFrame) (children : list Layer) (markers : list Marker) :
  gdf_rows (select_type filtered_gdf (Some "Point")) ≠ [] →
  markers_of (gdf_rows (select_type filtered_gdf (Some "Point"))) = Ok markers →
  add_layer filtered_gdf children (Some "Point") =
    Ok (children ++ [MarkerClusterLayer markers])%list.
Proof.
  intros Hrows Hmarkers. unfold add_layer. cbv zeta. rewrite Hmarkers.
  destruct (gdf_rows (select_type filtered_gdf (Some "Point"))) as [|r rows] eqn:E;
    [done|].
  reflexivity.
Qed.

Lemma no_layer_for_MultiPoint (filtered_gdf : GeoDataFrame) (children : list Layer) :
  add_layer filtered_gdf children (Some "MultiPoint") = Ok children.
Proof.
  unfold add_layer. by destruct (0 <? _)%nat.
Qed.

End Properties.

(** ** The script on explicit inputs *)

(** C1, where the code departs from it.  On a column of native geometry
    objects the first strategy succeeds, yet WKT and WKB parsing are both
    attempted, both raise, the decode error is shown, and the pass goes on:
    the summary is shown, the type selector is shown with the types of the
    frame, and the bounding envelope of the frame is asked for.  On a
    column of WKT text the constructor raises and the pass stops there:
    WKT parsing is never attempted. *)
Theorem decode_error_does_not_halt :
  let native := Demo.run_process Demo.native_frame "geometry" Demo.all_types in
  let text := Demo.run_process Demo.wkt_frame "geometry" Demo.all_types in
  let types := [Some "Point"; Some "Polygon"] in
  native.1 = Ok () ∧
  take 5 (trace native.2) =
    [CallGeoDataFrame "geometry"; CallFromWkt "geometry"; CallFromWkb "geometry";
     StError "Could not convert the geometry column to a valid geometry. Please check your data.";
     StSubheader "Data Information"] ∧
  take 3 (drop 11 (trace native.2)) =
    [StSubheader "Filter by Geometry Type";
     StMultiselect "Select geometry types to display" types types;
     CallTotalBounds Demo.native_gdf] ∧
  text = (Raise (Exn "Input must be valid geometry objects"),
          mkWorld ∅ [CallGeoDataFrame "geometry"]).
Proof.
  vm_compute. repeat split.
Qed.

(** C3, where the code departs from it.  With a frame of one MultiPoint row
    and MultiPoint selected, the map that is displayed has the base tile
    layer and the layer control as its only children: no layer and no
    marker is built for the row. *)
Theorem multipoint_rows_get_no_layer :
  @filter_and_render Demo.carriers (Demo.lib (λ _, Ok Demo.multipoint_frame))
    Demo.one_multipoint [Some "MultiPoint"] (mkWorld ∅ []) =
  (Ok (),
   mkWorld ∅
     [CallTotalBounds Demo.one_multipoint;
      StSubheader "Map Visualization";
      FoliumStatic (mkMap (3%Q, 2%Q) 10 [TileLayer "OpenStreetMap"; LayerControl])]).
Proof. vm_compute. reflexivity. Qed.


Lemma envelope_only_over_nonempty_frame_witness :
  let lib := Demo.lib (λ _, Ok Demo.native_frame) in
  let session := Demo.session (Some Demo.payload) Demo.all_types in
  (∀ label options default,
     @multiselect_value session label options default ⊆ options) ∧
  (∀ f target f', @to_crs _ lib f target = Ok f' →
                  length (gdf_rows f') = length (gdf_rows f)) ∧
  gdf_rows Demo.native_gdf ≠ [].
Proof.
  intros lib session.
  assert (Hwidget : ∀ label options default,
            @multiselect_value session label options default ⊆ options).
  { intros label options default. apply list_subseteq_filter. }
  assert (Hcrs : ∀ f target f', @to_crs _ lib f target = Ok f' →
                   length (gdf_rows f') = length (gdf_rows f)).
  { intros f target f'. simpl. unfold Demo.reproject.
    destruct (gdf_crs f); [intros [= <-]; reflexivity | discriminate]. }
  split; [exact Hwidget|]. split; [exact Hcrs|].
  refine (proj2 (proj2 (proj2 (proj2
    (@envelope_only_over_nonempty_frame _ lib session Hwidget Hcrs))))
    ∅ Demo.native_gdf _).
  vm_compute. repeat first [apply list_elem_of_here | apply list_elem_of_further].
Defined.

(** * Further properties of the script *)

Lemma contains_geometry_geom (s : string) :
  contains "geometry" s = true → contains "geom" s = true.
Proof.
  rewrite !contains_spec. intros (pre & post & ->).
  exists pre, ("etry" +:+ post).
  change "geometry" with ("geom" +:+ "etry"). by rewrite string_app_assoc.
Qed.

Section Coverage.
Context `{GeoLib} `{Session}.

(** ** Geometry column detection, continued *)

Lemma columns_where_ext (test1 test2 : string → bool) (columns : list column_label) :
  (∀ lowered, test1 lowered = test2 lowered) →
  columns_where test1 columns = columns_where test2 columns.
Proof.
  intros Hext. induction columns as [|col columns IH]; [done|].
  simpl. rewrite IH. destruct (label_lower col) as [lowered|]; simpl; [|done].
  by rewrite Hext.
Qed.

(** X1: the test for "geometry" never adds a column and never changes
    whether line 31 raises: the comprehension gives what it would give
    with the test for "geom" alone. *)
Theorem geometry_token_is_redundant (df : DataFrame) :
  geometry_cols_of df = columns_where (contains "geom") (df_columns df).
Proof.
  unfold geometry_cols_of. apply columns_where_ext. intros lowered.
  destruct (contains "geom" lowered) eqn:Hgeom; [done|].
  destruct (contains "geometry" lowered) eqn:Hgeometry; [|done].
  apply contains_geometry_geom in Hgeometry. congruence.
Qed.

(** X2: when line 31 has given at least one candidate and the selectbox
    returns one of the options it is given, choosing the column never
    raises, the column chosen is a column of the frame whose name matches,
    and it is the one the rest of the pass is run on. *)
Theorem selected_column_is_a_candidate
    (df : DataFrame) (geometry_cols : list string) (w : world)
    (selectbox_contract :
       ∀ label options, options ≠ [] → selectbox_value label options ∈ options)
    (Hcols : geometry_cols_of df = Ok geometry_cols)
    (Hcandidates : geometry_cols ≠ []) :
  ∃ col w',
    select_geometry_col geometry_cols w = (Ok col, w') ∧
    StrLabel col ∈ df_columns df ∧ name_matches col ∧
    resolve_and_process df w =
      try_except (process df col)
        (λ e, st_error ("Error processing the data: " +:+ str_exn e)) w'.
Proof.
  pose proof (geometry_cols_of_elem df geometry_cols) as Hin.
  unfold resolve_and_process. rewrite bind_run. unfold lift. rewrite Hcols.
  destruct geometry_cols as [|col [|col' cols]]; [done| |].
  - exists col, w. repeat split; try done; apply Hin; try done;
      apply list_elem_of_here.
  - set (options := col :: col' :: cols).
    exists (selectbox_value "Select geometry column" options),
      (logged w [StSelectbox "Select geometry column" options]).
    assert (Hchosen : selectbox_value "Select geometry column" options ∈ options)
      by by apply selectbox_contract.
    repeat split; try done; by apply Hin.
Qed.

(** ** Filtering, continued *)

Lemma gdf_eq (a b : GeoDataFrame) :
  gdf_rows a = gdf_rows b → gdf_crs a = gdf_crs b → a = b.
Proof. destruct a, b. simpl. by intros -> ->. Qed.

Lemma filter_all {A} (P : A → Prop) `{!∀ x, Decision (P x)} (l : list A) :
  Forall P l → filter P l = l.
Proof.
  induction 1 as [|x l HP _ IH]; [done|].
  by rewrite filter_cons_True, IH.
Qed.

(** X3: the selection the multiselect starts with (every distinct type of
    the frame) filters nothing out. *)
Theorem default_selection_keeps_every_row (gdf : GeoDataFrame) :
  filterByTypes gdf (unique (geometry_types_of gdf)) = gdf.
Proof.
  apply gdf_eq; [|done]. rewrite filterByTypes_rows. apply filter_all.
  apply Forall_forall. intros r Hr. apply type_present. by exists r.
Qed.

(** X4: filtering by one selection and then by another is filtering by
    the types the two have in common, in either order. *)
Theorem filterByTypes_composes (gdf : GeoDataFrame) (T1 T2 : list (option string)) :
  filterByTypes (filterByTypes gdf T1) T2 =
    filterByTypes gdf (filter (λ t, t ∈ T2) T1) ∧
  filterByTypes (filterByTypes gdf T1) T2 =
    filterByTypes (filterByTypes gdf T2) T1.
Proof.
  split; (apply gdf_eq; [|done]); rewrite !filterByTypes_rows, !list_filter_filter;
    apply list_filter_iff; intros r; rewrite ?list_elem_of_filter; tauto.
Qed.

(** X5: in the filtered frame the rows of a selected type are all the
    rows of that type, in the same order, and a type that was not
    selected has no row left. *)
Theorem layer_rows_of_filtered_frame
    (gdf : GeoDataFrame) (T : list (option string)) (s : string) :
  gdf_rows (select_type (filterByTypes gdf T) (Some s)) =
    if bool_decide (Some s ∈ T) then gdf_rows (select_type gdf (Some s)) else [].
Proof.
  rewrite !select_type_rows, filterByTypes_rows, list_filter_filter.
  case_bool_decide as Hs.
  - apply list_filter_iff. intros r. split; [tauto|]. intros Hr. by rewrite Hr.
  - induction (gdf_rows gdf) as [|r rows IH]; [done|].
    rewrite filter_cons_False; [done|]. intros [Hr Hin]. by rewrite Hr in Hin.
Qed.

(** ** Decoding, continued *)

(** X6: decoding raises exactly when the constructor raises, or returns a
    frame without rows (the look at its first element is then out of
    bounds); a failure of the WKT or WKB parser never leaves the decoder. *)
Theorem decode_geometry_raises_iff
    (df : DataFrame) (geometry_col : string) (w : world) (e : exn) :
  (decode_geometry df geometry_col w).1 = Raise e ↔
  GeoDataFrame_of_column df geometry_col = Raise e ∨
  ∃ gdf, GeoDataFrame_of_column df geometry_col = Ok gdf ∧ gdf_rows gdf = [] ∧
         e = Exn "single positional indexer is out-of-bounds".
Proof.
  unfold decode_geometry, iloc0, try_except, st_error, lift, emit, mbind, M_bind,
    mret, M_ret.
  simpl. destruct (GeoDataFrame_of_column df geometry_col) as [gdf|e0]; simpl.
  - destruct (gdf_rows gdf) as [|r rows] eqn:Hrows; simpl.
    + split; [intros [= <-]; right; by exists gdf|].
      intros [[=]|(gdf' & [= <-] & _ & ->)]. done.
    + split; [|intros [[=]|(gdf' & [= <-] & Hnil & _)]; congruence].
      destruct (isinstance_GeoSeries (row_geometry r)); simpl; [done|].
      destruct (GeoDataFrame_from_wkt df geometry_col); simpl; [done|].
      destruct (GeoDataFrame_from_wkb df geometry_col); simpl; done.
  - split; [intros [= <-]; by left|].
    intros [[= <-]|(gdf' & [=] & _)]. done.
Qed.

(** X7: once the constructor has returned a frame with rows whose first
    element is not a GeoSeries, the parsers take precedence over it: the
    frame of the WKT parser is used when it parses, else the frame of the
    WKB parser when that parses, and the constructor's own frame only
    when both raise, the error being shown in that case only. *)
Theorem parsers_take_precedence_over_constructor
    (df : DataFrame) (geometry_col : string) (gdf : GeoDataFrame)
    (r : Row) (rows : list Row) (w : world)
    (Hctor : GeoDataFrame_of_column df geometry_col = Ok gdf)
    (Hrows : gdf_rows gdf = r :: rows)
    (Hinst : isinstance_GeoSeries (row_geometry r) = false) :
  decode_geometry df geometry_col w =
    match GeoDataFrame_from_wkt df geometry_col with
    | Ok from_wkt =>
        (Ok from_wkt, logged w [CallGeoDataFrame geometry_col; CallFromWkt geometry_col])
    | Raise _ =>
        match GeoDataFrame_from_wkb df geometry_col with
        | Ok from_wkb =>
            (Ok from_wkb,
             logged w [CallGeoDataFrame geometry_col; CallFromWkt geometry_col;
                       CallFromWkb geometry_col])
        | Raise _ =>
            (Ok gdf,
             logged w [CallGeoDataFrame geometry_col; CallFromWkt geometry_col;
                       CallFromWkb geometry_col;
                       StError "Could not convert the geometry column to a valid geometry. Please check your data."])
        end
    end.
Proof.
  unfold decode_geometry, iloc0, try_except, st_error, lift, emit, mbind, M_bind,
    mret, M_ret, logged.
  simpl. rewrite Hctor, Hrows. simpl. rewrite Hinst. simpl.
  destruct (GeoDataFrame_from_wkt df geometry_col); simpl;
    [by rewrite <- !app_assoc|].
  destruct (GeoDataFrame_from_wkb df geometry_col); simpl;
    by rewrite <- !app_assoc.
Qed.

(** ** Summary, continued *)

Lemma join_from_None (i : nat) (sep : string) (items : list (option string)) :
  None ∈ items →
  ∃ k : nat, join_from i sep items =
         Raise (Exn ("sequence item " +:+ pretty k +:+ ": expected str instance, NoneType found")).
Proof.
  revert i. induction items as [|[s|] items IH]; intros i Hin.
  - by apply elem_of_nil in Hin.
  - apply elem_of_cons in Hin as [[=]|Hin].
    destruct (IH (S i) Hin) as (k & Hk). exists k. simpl. by rewrite Hk.
  - by exists i.
Qed.

(** X8: when a row has no geometry type (a missing geometry), the summary
    breaks off after the row count and the CRS, joining the type names
    raises a TypeError: no type selector and no map follow. *)
Theorem missing_geometry_stops_summary
    (df : DataFrame) (gdf : GeoDataFrame) (w : world)
    (Hmissing : None ∈ geometry_types_of gdf) :
  ∃ k : nat,
    show_and_render df gdf w =
      (Raise (Exn ("sequence item " +:+ pretty k +:+ ": expected str instance, NoneType found")),
       logged w
         [StSubheader "Data Information"; StColumns 2;
          StWrite ("Total rows: " +:+ pretty (length (gdf_rows gdf)));
          StWrite ("CRS: " +:+ str_option_crs (gdf_crs gdf))]).
Proof.
  apply (unique_elem _ None) in Hmissing.
  destruct (join_from_None 0 ", " _ Hmissing) as (k & Hk). exists k.
  unfold show_and_render, show_info, join, st_subheader, st_write, emit, lift,
    mbind, M_bind, logged.
  simpl. rewrite Hk. simpl. by rewrite <- !app_assoc.
Qed.

(** ** Layers, continued *)

Lemma markers_of_Forall2 (rows : list Row) (markers : list Marker) :
  markers_of rows = Ok markers ↔
  Forall2
    (λ row marker,
       ∃ value y x,
         row_labelled_geometry row = Some value ∧
         geom_y value = Ok y ∧ geom_x value = Ok x ∧
         marker = mkMarker (y, x) ("ID: " +:+ str_label (row_idx row)))
    rows markers.
Proof.
  split.
  - revert markers. induction rows as [|r rows IH]; intros markers; simpl.
    + intros [= <-]. constructor.
    + unfold getattr_geometry.
      destruct (row_labelled_geometry r) as [value|] eqn:Hvalue; simpl; [|done].
      destruct (geom_y value) as [y|] eqn:Hy; simpl; [|done].
      destruct (geom_x value) as [x|] eqn:Hx; simpl; [|done].
      destruct (markers_of rows) as [ms|]; simpl; [|done].
      intros [= <-]. constructor; [by exists value, y, x | by apply IH].
  - induction 1 as [|r m rows ms (value & y & x & Hvalue & Hy & Hx & ->) _ IH];
      [done|].
    simpl. unfold getattr_geometry. rewrite Hvalue. simpl.
    rewrite Hy. simpl. rewrite Hx. simpl. by rewrite IH.
Qed.

(** X9: when the markers of a point layer are obtained, every row has a
    value under the label [geometry] (which is where [row.geometry] looks,
    whatever the name of the column that was selected) with both
    coordinates, and the markers follow the rows one for one and in order,
    each at [y, x] of that value with the popup [ID: label].  When some
    row has no value under that label, no markers are obtained: the loop
    raises. *)
Theorem markers_follow_rows (rows : list Row) :
  (∀ markers,
     markers_of rows = Ok markers →
     Forall2
       (λ row marker,
          ∃ value y x,
            row_labelled_geometry row = Some value ∧
            geom_y value = Ok y ∧ geom_x value = Ok x ∧
            marker = mkMarker (y, x) ("ID: " +:+ str_label (row_idx row)))
       rows markers) ∧
  (Exists (λ row, row_labelled_geometry row = None) rows →
   ∃ e, markers_of rows = Raise e).
Proof.
  split; [intros markers; apply markers_of_Forall2|].
  intros Hunnamed. destruct (markers_of rows) as [markers|e] eqn:Hmarkers;
    [|by exists e].
  apply markers_of_Forall2 in Hmarkers. exfalso. clear -Hunnamed Hmarkers.
  induction Hmarkers as [|r m rows ms (value & y & x & Hvalue & _) _ IH].
  - by apply Exists_nil in Hunnamed.
  - apply Exists_cons in Hunnamed as [Hr|Hrows]; [congruence | by apply IH].
Qed.

(** X10: a selected type that the loop has no branch for (anything but
    Point, LineString, MultiLineString, Polygon and MultiPolygon), or that
    has no row in the filtered frame, leaves the map as it is. *)
Theorem unhandled_types_add_no_layer
    (filtered_gdf : GeoDataFrame) (children : list Layer) (t : option string)
    (Hskip : t ∉ handled_types ∨ gdf_rows (select_type filtered_gdf t) = []) :
  add_layer filtered_gdf children t = Ok children.
Proof.
  unfold add_layer. cbv zeta. destruct Hskip as [Ht|Hrows].
  - destruct (0 <? _)%nat; [|done]. unfold handled_types in Ht.
    rewrite !not_elem_of_cons in Ht.
    destruct Ht as (Hpoint & Hline & Hmultiline & Hpolygon & Hmultipolygon & _).
    rewrite (bool_decide_eq_false_2 (t = _)) by done.
    rewrite !bool_decide_eq_false_2; [done|..];
      rewrite !not_elem_of_cons; repeat split; try done; apply not_elem_of_nil.
  - by rewrite Hrows.
Qed.

Lemma select_type_Forall (filtered_gdf : GeoDataFrame) (t : option string) :
  Forall (λ r, geom_type (row_geometry r) = t) (gdf_rows (select_type filtered_gdf t)).
Proof.
  destruct t as [s|].
  - rewrite select_type_rows. apply Forall_forall. intros r Hr.
    by apply list_elem_of_filter in Hr as [Hr _].
  - unfold select_type, getitem_mask, geometry_types_of. simpl.
    induction (gdf_rows filtered_gdf) as [|r rows IH]; [constructor|].
    simpl. by destruct (geom_type (row_geometry r)).
Qed.

Lemma add_layer_proper (filtered_gdf : GeoDataFrame) (children children' : list Layer)
    (t : option string) :
  add_layer filtered_gdf children t = Ok children' →
  ∃ new, children' = (children ++ new)%list ∧ (length new ≤ 1)%nat ∧
         Forall proper_layer new.
Proof.
  unfold add_layer. cbv zeta.
  assert (Hnone : ∃ new, children = (children ++ new)%list ∧ (length new ≤ 1)%nat ∧
                         Forall proper_layer new).
  { exists []. rewrite app_nil_r. repeat split; [simpl; lia | constructor]. }
  destruct (0 <? length (gdf_rows (select_type filtered_gdf t)))%nat eqn:Hlen;
    [|by intros [= <-]].
  assert (Hne : gdf_rows (select_type filtered_gdf t) ≠ []).
  { intros Hnil. by rewrite Hnil in Hlen. }
  pose proof (select_type_Forall filtered_gdf t) as Htype.
  case_bool_decide as Hpoint.
  - destruct (markers_of _) as [markers|] eqn:Hmarkers; simpl; [|done].
    intros [= <-]. exists [MarkerClusterLayer markers].
    repeat split; [done|]. constructor; [|constructor].
    apply markers_of_Forall2 in Hmarkers. split.
    + intros ->. by apply Forall2_nil_inv_r in Hmarkers.
    + clear -Hmarkers.
      induction Hmarkers as [|r' m ? ? (value & y & x & _ & _ & _ & ->) _ IH];
        constructor; [by eexists | done].
  - case_bool_decide as Hline.
    { destruct (folium_GeoJson _) as [[]|]; simpl; [|done].
      intros [= <-]. exists [GeoJson (select_type filtered_gdf t) t line_style].
      repeat split; [done|]. constructor; [|constructor].
      simpl. repeat split; [done..|]. by left. }
    case_bool_decide as Hpolygon; [|by intros [= <-]].
    destruct (folium_GeoJson _) as [[]|]; simpl; [|done].
    intros [= <-]. exists [GeoJson (select_type filtered_gdf t) t polygon_style].
    repeat split; [done|]. constructor; [|constructor].
    simpl. repeat split; [done..|]. by right.
Qed.

Lemma add_layers_proper (filtered_gdf : GeoDataFrame) (selected_types : list (option string))
    (children children' : list Layer) :
  add_layers filtered_gdf children selected_types = Ok children' →
  ∃ new, children' = (children ++ new)%list ∧
         (length new ≤ length selected_types)%nat ∧
         Forall proper_layer new.
Proof.
  revert children. induction selected_types as [|t rest IH]; intros children; simpl.
  - intros [= <-]. exists []. rewrite app_nil_r. repeat split; [done | constructor].
  - destruct (add_layer filtered_gdf children t) as [children1|] eqn:Hone; simpl;
      [|done].
    intros Hrest. apply add_layer_proper in Hone as (new1 & -> & Hlen1 & Hnew1).
    apply IH in Hrest as (new2 & -> & Hlen2 & Hnew2).
    exists (new1 ++ new2)%list. rewrite app_assoc, length_app.
    repeat split; [lia | by apply Forall_app].
Qed.

(** X11: when the layer loop completes, it has appended to the map at most
    one layer per selected type, in the order of the selection, and every
    layer it appended is a cluster of at least one marker with [ID: label]
    popups, or a GeoJson layer named after a line or polygon type that
    holds at least one row, rows of that type only, in the style of its
    kind. *)
Theorem add_layers_appends_proper_layers
    (filtered_gdf : GeoDataFrame) (selected_types : list (option string))
    (children children' : list Layer)
    (Hdone : add_layers filtered_gdf children selected_types = Ok children') :
  ∃ new, children' = (children ++ new)%list ∧
         (length new ≤ length selected_types)%nat ∧
         Forall proper_layer new.
Proof. exact (add_layers_proper _ _ _ _ Hdone). Qed.

(** ** The filter stage as a whole *)

Lemma render_map_outcome (gdf filtered_gdf : GeoDataFrame)
    (selected_types : list (option string)) (w : world) :
  ∃ l, Forall quiet l ∧
    ((∃ e, render_map gdf filtered_gdf selected_types w = (Raise e, logged w l)) ∨
     (∃ m, render_map gdf filtered_gdf selected_types w =
             (Ok (), logged w (l ++ [FoliumStatic m])%list))).
Proof.
  assert (Hfinish : ∀ (pre : list event) (f : GeoDataFrame),
    Forall quiet pre →
    ∃ l, Forall quiet l ∧
      ((∃ e, (emit (CallTotalBounds f);;
              bounds ← lift (total_bounds f);
              children ← lift (add_layers f base_children selected_types);
              let m := mkMap (center_of bounds) 10 (children ++ [LayerControl])%list in
              st_subheader "Map Visualization";;
              emit (FoliumStatic m)) (logged w pre) = (Raise e, logged w l)) ∨
       (∃ m, (emit (CallTotalBounds f);;
              bounds ← lift (total_bounds f);
              children ← lift (add_layers f base_children selected_types);
              let m := mkMap (center_of bounds) 10 (children ++ [LayerControl])%list in
              st_subheader "Map Visualization";;
              emit (FoliumStatic m)) (logged w pre) =
               (Ok (), logged w (l ++ [FoliumStatic m])%list)))).
  { intros pre f Hpre.
    unfold st_subheader, emit, lift, logged, mbind, M_bind. simpl.
    destruct (total_bounds f) as [bounds|e];
      [destruct (add_layers f base_children selected_types) as [children|e]|].
    - exists (pre ++ [CallTotalBounds f; StSubheader "Map Visualization"])%list.
      split; [apply Forall_app; split; [done|by repeat constructor]|].
      right. eexists. by rewrite <- !app_assoc.
    - exists (pre ++ [CallTotalBounds f])%list.
      split; [apply Forall_app; split; [done|by repeat constructor]|].
      left. exists e. by rewrite <- !app_assoc.
    - exists (pre ++ [CallTotalBounds f])%list.
      split; [apply Forall_app; split; [done|by repeat constructor]|].
      left. exists e. by rewrite <- !app_assoc. }
  assert (Hsame : logged w [] = w).
  { unfold logged. rewrite app_nil_r. by destruct w. }
  unfold render_map. rewrite bind_run. unfold normalizeCRS.
  destruct (gdf_crs gdf) as [crs|]; [destruct (crs_ne crs "EPSG:4326")|].
  - rewrite bind_run. unfold emit at 1. unfold lift at 1.
    destruct (to_crs filtered_gdf "EPSG:4326") as [f'|e].
    + apply (Hfinish [CallToCrs filtered_gdf "EPSG:4326"] f').
      by repeat constructor.
    + exists [CallToCrs filtered_gdf "EPSG:4326"]. split; [by repeat constructor|].
      left. by exists e.
  - specialize (Hfinish [] filtered_gdf (Forall_nil_2 _)).
    rewrite Hsame in Hfinish. exact Hfinish.
  - specialize (Hfinish [] filtered_gdf (Forall_nil_2 _)).
    rewrite Hsame in Hfinish. exact Hfinish.
Qed.

(** X12: the filter stage never raises, and the last thing it does is show
    exactly one of: the warning (when nothing is selected), the message
    [Error creating map: ...], or the map; before that it shows no map,
    no error and no warning. *)
Theorem filter_stage_ends_with_map_or_reason
    (gdf : GeoDataFrame) (selected_types : list (option string)) (w : world) :
  (filter_and_render gdf selected_types w).1 = Ok () ∧
  ∃ l last,
    trace (filter_and_render gdf selected_types w).2 = (trace w ++ l ++ [last])%list ∧
    Forall quiet l ∧
    (selected_types = [] ∧
       last = StWarning "Please select at least one geometry type to display" ∨
     selected_types ≠ [] ∧
       ((∃ e, last = StError ("Error creating map: " +:+ str_exn e)) ∨
        (∃ m, last = FoliumStatic m))).
Proof.
  destruct selected_types as [|t rest].
  { split; [done|]. eexists [], _. repeat split; [constructor|]. by left. }
  unfold filter_and_render, try_except. cbv zeta.
  destruct (render_map_outcome gdf (filterByTypes gdf (t :: rest)) (t :: rest) w)
    as (l & Hl & [(e & ->)|(m & ->)]).
  - split; [done|]. exists l, (StError ("Error creating map: " +:+ str_exn e)).
    split; [by rewrite app_assoc|]. split; [done|]. right. split; [done|].
    left. by exists e.
  - split; [done|]. exists l, (FoliumStatic m).
    split; [done|]. split; [done|]. right. split; [done|]. right. by exists m.
Qed.

(** ** The pass as a whole *)

(** Once line 31 has given the candidates, nothing raises. *)
Lemma resolve_and_process_returns (df : DataFrame) (geometry_cols : list string)
    (w : world) :
  geometry_cols_of df = Ok geometry_cols →
  (resolve_and_process df w).1 = Ok ().
Proof.
  intros Hcols. unfold resolve_and_process. rewrite bind_run. unfold lift.
  rewrite Hcols. destruct geometry_cols as [|col cols]; [done|].
  rewrite bind_run. unfold select_geometry_col, st_selectbox.
  destruct (1 <? length (col :: cols))%nat; apply try_except_reported.
Qed.

Lemma resolve_and_process_raises_iff (df : DataFrame) (w : world) (e : exn) :
  (resolve_and_process df w).1 = Raise e ↔
  ∃ names rest, df_columns df = ((StrLabel <$> names) ++ OtherLabel e :: rest)%list.
Proof.
  destruct (column_labels_cases (df_columns df))
    as [(names & Hnames)|(names & raises & rest & Hnames)].
  - destruct (geometry_cols_of_strings df names Hnames) as (cols & Hcols & _).
    rewrite (resolve_and_process_returns df cols w Hcols). split; [done|].
    intros (names' & rest' & Hnames'). rewrite Hnames in Hnames'.
    apply (f_equal (columns_where (λ _, true))) in Hnames'.
    by rewrite columns_where_strings, columns_where_other in Hnames'.
  - rewrite (resolve_and_process_raises df names raises rest w Hnames). simpl.
    split.
    + intros [= <-]. by exists names, rest.
    + intros (names' & rest' & Hnames'). rewrite Hnames in Hnames'.
      apply (f_equal (columns_where (λ _, true))) in Hnames'.
      rewrite !columns_where_other in Hnames'. by injection Hnames' as ->.
Qed.

(** X13: once the file has been read, the rest of the pipeline raises
    exactly when some column label is not a str: it then raises what line
    31 raises on the first such label, having shown nothing.  A missing
    geometry column, a failure while decoding or summarising and a failure
    while building the map never raise out of it. *)
Theorem pipeline_raises_iff_label_not_str (df : DataFrame) (w : world) (e : exn) :
  ((resolve_and_process df w).1 = Raise e ↔
   ∃ names rest,
     df_columns df = ((StrLabel <$> names) ++ OtherLabel e :: rest)%list) ∧
  ((∃ names rest,
      df_columns df = ((StrLabel <$> names) ++ OtherLabel e :: rest)%list) →
   resolve_and_process df w = (Raise e, w)).
Proof.
  split; [apply resolve_and_process_raises_iff|].
  intros (names & rest & Hnames). by eapply resolve_and_process_raises.
Qed.

Lemma handle_upload_cases (payload : list Byte.byte) (w : world) :
  let tmp_path := tmp_name (fs w) in
  let read := logged (mkWorld (<[tmp_path := payload]> (fs w)) (trace w))
                [CallReadTable tmp_path] in
  let reported e :=
    (Ok (),
     mkWorld (delete tmp_path (fs w))
       (trace w ++ [CallReadTable tmp_path;
                    StError ("Error reading the parquet file: " +:+ str_exn e)])) in
  handle_upload payload w =
    match read_table_to_pandas payload with
    | Ok df =>
        match geometry_cols_of df with
        | Ok _ =>
            (Ok (),
             mkWorld (delete tmp_path (fs w)) (trace (resolve_and_process df read).2))
        | Raise e => reported e
        end
    | Raise e => reported e
    end.
Proof.
  intros tmp_path read reported. subst reported.
  unfold handle_upload, NamedTemporaryFile_write, try_finally, try_except,
    pq_read_table, read_bytes, os_unlink, st_error, emit, lift, mbind, M_bind.
  fold tmp_path. simpl. rewrite lookup_insert_eq.
  destruct (read_table_to_pandas payload) as [df|e]; simpl.
  - change (mkWorld (<[tmp_path:=payload]> (fs w))
              (trace w ++ [CallReadTable tmp_path])) with read.
    pose proof (keeps_fs_resolve_and_process df read) as Hfs.
    destruct (geometry_cols_of df) as [cols|e] eqn:Hcols.
    + pose proof (resolve_and_process_returns df cols read Hcols) as Hres.
      destruct (resolve_and_process df read) as [r w2]. simpl in Hres, Hfs.
      subst r. rewrite Hfs. simpl. rewrite lookup_insert_eq. simpl.
      by rewrite delete_insert_eq.
    + assert (Hraise : resolve_and_process df read = (Raise e, read)).
      { unfold resolve_and_process. rewrite bind_run. unfold lift.
        by rewrite Hcols. }
      rewrite Hraise. simpl. rewrite lookup_insert_eq. simpl.
      by rewrite delete_insert_eq, <- app_assoc.
  - rewrite lookup_insert_eq. simpl. by rewrite delete_insert_eq, <- app_assoc.
Qed.

(** X14: the reader is given exactly the uploaded bytes.  When it raises,
    and also when it returns a frame on whose column labels line 31
    raises, the pass shows [Error reading the parquet file: ...] and runs
    no later stage; otherwise the upload stage is the rest of the pipeline
    run on the frame.  In every case the stage completes with the
    temporary file removed. *)
Theorem upload_stage_by_read_result (payload : list Byte.byte) (w : world) :
  let tmp_path := tmp_name (fs w) in
  let read := logged (mkWorld (<[tmp_path := payload]> (fs w)) (trace w))
                [CallReadTable tmp_path] in
  let reported e :=
    (Ok (),
     mkWorld (delete tmp_path (fs w))
       (trace w ++ [CallReadTable tmp_path;
                    StError ("Error reading the parquet file: " +:+ str_exn e)])) in
  handle_upload payload w =
    match read_table_to_pandas payload with
    | Ok df =>
        match geometry_cols_of df with
        | Ok _ =>
            (Ok (),
             mkWorld (delete tmp_path (fs w)) (trace (resolve_and_process df read).2))
        | Raise e => reported e
        end
    | Raise e => reported e
    end.
Proof. apply handle_upload_cases. Qed.

(** C2, where the code departs from it.  On a frame whose column labels
    are all strings the resolver is as claimed: the candidates are the
    names in which "geom" or "geometry" occurs, whatever the case of the
    letters, in column order; with no candidate the stage shows the error
    and nothing else runs, with one candidate it is taken without any
    widget, with several the selectbox offers all of them and its value is
    taken.  On a frame with a label that is not a string, line 31 raises
    before any of this: the resolver shows nothing, and the pass reports
    [Error reading the parquet file: ...] for a file that was read. *)
Theorem resolver_selects_geometry_column (df : DataFrame) (w : world) :
  let on_error := λ e, st_error ("Error processing the data: " +:+ str_exn e) in
  (∀ names,
     df_columns df = StrLabel <$> names →
     ∃ geometry_cols,
       geometry_cols_of df = Ok geometry_cols ∧
       (∀ col, col ∈ geometry_cols ↔ col ∈ names ∧ name_matches col) ∧
       sublist geometry_cols names ∧
       match geometry_cols with
       | [] =>
           resolve_and_process df w =
             (Ok (), logged w [StError "No geometry column found in the uploaded file. Please make sure your file contains a column with geometry data."])
       | [col] =>
           select_geometry_col geometry_cols w = (Ok col, w) ∧
           resolve_and_process df w = try_except (process df col) on_error w
       | _ :: _ :: _ =>
           let chosen := selectbox_value "Select geometry column" geometry_cols in
           let w' := logged w [StSelectbox "Select geometry column" geometry_cols] in
           select_geometry_col geometry_cols w = (Ok chosen, w') ∧
           resolve_and_process df w = try_except (process df chosen) on_error w'
       end) ∧
  (∀ names raises rest,
     df_columns df = ((StrLabel <$> names) ++ OtherLabel raises :: rest)%list →
     resolve_and_process df w = (Raise raises, w) ∧
     ∀ payload,
       read_table_to_pandas payload = Ok df →
       handle_upload payload w =
         (Ok (),
          mkWorld (delete (tmp_name (fs w)) (fs w))
            (trace w ++
             [CallReadTable (tmp_name (fs w));
              StError ("Error reading the parquet file: " +:+ str_exn raises)]))).
Proof.
  intros on_error. split.
  - intros names Hnames.
    destruct (geometry_cols_of_strings df names Hnames) as (cols & Hcols & Hiff & Hsub).
    exists cols. split; [done|]. split; [done|]. split; [done|].
    unfold resolve_and_process. rewrite bind_run. unfold lift. rewrite Hcols.
    destruct cols as [|col [|col' cols]]; [done|done|done].
  - intros names raises rest Hnames.
    split; [by eapply resolve_and_process_raises|].
    intros payload Hread. rewrite handle_upload_cases. cbv zeta. rewrite Hread.
    unfold geometry_cols_of. by rewrite Hnames, columns_where_other.
Qed.

(** Goes through a definition whose events are all accepted by
    [shows_proper_map] on sight; [leaf] closes the stages already dealt
    with. *)
Ltac proper_steps leaf :=
  repeat first
    [ match goal with |- ∀ _, _ => intro end
    | solve [leaf]
    | apply produces_ret; exact I
    | apply produces_emit; [exact I | exact I]
    | apply produces_lift; intros; exact I
    | apply produces_read_bytes
    | apply produces_bind with (Q := λ _, True)
    | apply produces_try_except
    | match goal with
      | |- produces (match ?x with _ => _ end) _ _ => destruct x
      end ].

Lemma proper_render_map (gdf filtered_gdf : GeoDataFrame)
    (selected_types : list (option string)) :
  produces (render_map gdf filtered_gdf selected_types) shows_proper_map (λ _, True).
Proof.
  unfold render_map, normalizeCRS, st_subheader.
  apply produces_bind with (Q := λ _, True); [proper_steps fail|intros f _].
  apply produces_bind with (Q := λ _, True); [proper_steps fail|intros ? _].
  apply produces_bind with (Q := λ _, True); [proper_steps fail|intros bounds _].
  apply produces_bind
    with (Q := λ children, ∃ layers, children = (base_children ++ layers)%list ∧
                                     Forall proper_layer layers).
  - apply produces_lift. intros children Hchildren.
    apply add_layers_proper in Hchildren as (new & -> & _ & Hnew). by exists new.
  - intros children (layers & -> & Hlayers). cbv zeta.
    apply produces_bind with (Q := λ _, True); [proper_steps fail|intros ? _].
    apply produces_emit; [|exact I].
    split; [done|]. exists layers. by rewrite <- app_assoc.
Qed.

Lemma proper_resolve_and_process (df : DataFrame) :
  produces (resolve_and_process df) shows_proper_map (λ _, True).
Proof.
  unfold resolve_and_process, select_geometry_col, getitem0, st_selectbox, process,
    decode_geometry, iloc0, show_and_render, show_info, st_multiselect,
    filter_and_render, st_subheader, st_write, st_error, st_warning.
  cbv zeta. proper_steps ltac:(apply proper_render_map).
Qed.

Lemma proper_handle_upload (payload : list Byte.byte) :
  produces (handle_upload payload) shows_proper_map (λ _, True).
Proof.
  intros w. rewrite handle_upload_cases. cbv zeta.
  assert (Hreported : ∀ e : exn, ∃ l,
    (trace w ++ [CallReadTable (tmp_name (fs w));
                 StError ("Error reading the parquet file: " +:+ str_exn e)])%list =
      (trace w ++ l)%list ∧
    Forall shows_proper_map l ∧
    CallReadTable (tmp_name (fs w)) ∈ take 1 l).
  { intros e. eexists. split; [done|]. split; [by repeat constructor|].
    apply list_elem_of_here. }
  destruct (read_table_to_pandas payload) as [df|e].
  - destruct (geometry_cols_of df) as [cols|e].
    + destruct (proper_resolve_and_process df
        (logged (mkWorld (<[tmp_name (fs w) := payload]> (fs w)) (trace w))
           [CallReadTable (tmp_name (fs w))])) as (l & Htrace & Hl & _).
      exists (CallReadTable (tmp_name (fs w)) :: l). simpl in *.
      rewrite Htrace, <- app_assoc. repeat split. by constructor.
    + destruct (Hreported e) as (l & Htrace & Hl & _). exists l. by repeat split.
  - destruct (Hreported e) as (l & Htrace & Hl & _). exists l. by repeat split.
Qed.

Lemma proper_main : produces main shows_proper_map (λ _, True).
Proof.
  unfold main, st_write, st_file_uploader, st_info.
  proper_steps ltac:(apply proper_handle_upload).
Qed.

(** X15: every map a pass displays has zoom 10, and its children are the
    base tile layer, then the layers of the loop, then one layer control
    as the last child: each layer of the loop a cluster of at least one
    marker with [ID: label] popups, or a GeoJson layer named after a line
    or polygon type that holds at least one row, rows of that type only,
    in the style of its kind. *)
Theorem every_displayed_map_is_well_formed (fs0 : gmap string (list Byte.byte)) :
  Forall shows_proper_map (trace (run_pass fs0).2).
Proof.
  destruct (proper_main (mkWorld fs0 [])) as (l & Htrace & Hl & _).
  unfold run_pass. by rewrite Htrace.
Qed.

(** X16: every pass shows the page header and the upload widget first and
    the help text and the requirements last, whatever happens in between.
    Without an upload it shows the prompt in between and nothing else;
    with an upload the first thing in between is the read of the temporary
    file. *)
Theorem pass_is_framed (fs0 : gmap string (list Byte.byte)) :
  ∃ mid,
    trace (run_pass fs0).2 = (page_header ++ mid ++ page_footer)%list ∧
    match uploaded_file with
    | None => mid = [StInfo "Please upload a parquet file containing geometry data."]
    | Some _ => ∃ rest, mid = CallReadTable (tmp_name fs0) :: rest
    end.
Proof.
  unfold run_pass, main, st_write, st_file_uploader, st_info.
  unfold emit at 1 2 3 4. unfold mbind, M_bind, mret, M_ret. simpl.
  destruct uploaded_file as [payload|].
  - rewrite handle_upload_cases. cbv zeta. simpl.
    assert (Hreported : ∀ e : exn, ∃ mid,
      ([StSetPageConfig "Geometry Viewer" "wide";
        StTitle "Geometry Viewer from Parquet Data";
        StWrite "Upload a parquet file containing geometry data to visualize on a map.";
        StFileUploader "Choose a parquet file";
        CallReadTable (tmp_name fs0);
        StError ("Error reading the parquet file: " +:+ str_exn e);
        StMarkdown supported_formats; StSidebarTitle "Requirements";
        StSidebarMarkdown requirements] =
       page_header ++ mid ++ page_footer)%list ∧
      ∃ rest, mid = CallReadTable (tmp_name fs0) :: rest).
    { intros e.
      exists [CallReadTable (tmp_name fs0);
              StError ("Error reading the parquet file: " +:+ str_exn e)].
      split; [reflexivity | by eexists]. }
    destruct (read_table_to_pandas payload) as [df|e]; simpl;
      [destruct (geometry_cols_of df) as [cols|e]; simpl|]; try apply Hreported.
    match goal with
    | |- context [resolve_and_process df ?w0] =>
        destruct (proper_resolve_and_process df w0) as (l & Htrace & _)
    end.
    simpl in Htrace. rewrite Htrace.
    exists (CallReadTable (tmp_name fs0) :: l). split; [|by eexists].
    unfold page_header, page_footer. simpl. by rewrite <- !app_assoc.
  - by exists [StInfo "Please upload a parquet file containing geometry data."].
Qed.

End Coverage.

(** ** The further properties on explicit inputs *)

Lemma selected_column_is_a_candidate_witness :
  let lib := Demo.lib (λ _, Ok Demo.native_frame) in
  let session := Demo.session (Some Demo.payload) Demo.all_types in
  let df :=
    Demo.mkFrame [StrLabel "id"; StrLabel "geom_wkt"; StrLabel "Geometry"] [] None in
  let geometry_cols := ["geom_wkt"; "Geometry"] in
  let w := mkWorld ∅ [] in
  (∀ label options,
     options ≠ [] → @selectbox_value session label options ∈ options) ∧
  @geometry_cols_of _ lib df = Ok geometry_cols ∧
  geometry_cols ≠ [] ∧
  ∃ col w',
    @select_geometry_col _ session geometry_cols w = (Ok col, w') ∧
    StrLabel col ∈ @df_columns _ lib df ∧ name_matches col ∧
    @resolve_and_process _ lib session df w =
      try_except (@process _ lib session df col)
        (λ e, st_error ("Error processing the data: " +:+ str_exn e)) w'.
Proof.
  intros lib session df geometry_cols w.
  assert (Hcontract : ∀ label options,
            options ≠ [] → @selectbox_value session label options ∈ options).
  { intros label [|option options] Hoptions; [done|]. apply list_elem_of_here. }
  assert (Hcols : @geometry_cols_of _ lib df = Ok geometry_cols) by reflexivity.
  assert (Hcandidates : geometry_cols ≠ []) by discriminate.
  split; [exact Hcontract|]. split; [exact Hcols|]. split; [exact Hcandidates|].
  exact (@selected_column_is_a_candidate _ lib session df geometry_cols w
           Hcontract Hcols Hcandidates).
Defined.

Lemma parsers_take_precedence_over_constructor_witness :
  let lib := Demo.lenient_lib (λ _, Ok Demo.native_frame) in
  let r := Demo.row 0 (Demo.Shape "Point" [Demo.pt 0 0]) in
  let w := mkWorld ∅ [] in
  @GeoDataFrame_of_column _ lib Demo.native_frame "geometry" = Ok Demo.native_gdf ∧
  (∃ rows, gdf_rows Demo.native_gdf = r :: rows) ∧
  @isinstance_GeoSeries _ lib (row_geometry r) = false ∧
  @decode_geometry _ lib Demo.native_frame "geometry" w =
    (Ok Demo.native_gdf, logged w [CallGeoDataFrame "geometry"; CallFromWkt "geometry"]).
Proof.
  intros lib r w.
  assert (Hctor : @GeoDataFrame_of_column _ lib Demo.native_frame "geometry" =
                  Ok Demo.native_gdf) by reflexivity.
  split; [exact Hctor|]. split; [by eexists|]. split; [reflexivity|].
  exact (@parsers_take_precedence_over_constructor _ lib Demo.native_frame
           "geometry" Demo.native_gdf r _ w Hctor eq_refl eq_refl).
Defined.

Lemma missing_geometry_stops_summary_witness :
  let lib := Demo.lib (λ _, Ok Demo.native_frame) in
  let session := Demo.session (Some Demo.payload) Demo.all_types in
  let w := mkWorld ∅ [] in
  None ∈ @geometry_types_of _ lib Demo.with_missing ∧
  ∃ k : nat,
    @show_and_render _ lib session Demo.native_frame Demo.with_missing w =
      (Raise (Exn ("sequence item " +:+ pretty k +:+ ": expected str instance, NoneType found")),
       logged w
         [StSubheader "Data Information"; StColumns 2;
          StWrite "Total rows: 2"; StWrite "CRS: None"]).
Proof.
  intros lib session w.
  assert (Hmissing : None ∈ @geometry_types_of _ lib Demo.with_missing).
  { apply list_elem_of_further, list_elem_of_here. }
  split; [exact Hmissing|].
  exact (@missing_geometry_stops_summary _ lib session Demo.native_frame
           Demo.with_missing w Hmissing).
Defined.

Lemma unhandled_types_add_no_layer_witness :
  let lib := Demo.lib (λ _, Ok Demo.multipoint_frame) in
  (Some "MultiPoint" ∉ handled_types ∨
   gdf_rows (@select_type _ lib Demo.one_multipoint (Some "MultiPoint")) = []) ∧
  @add_layer _ lib Demo.one_multipoint [] (Some "MultiPoint") = Ok [].
Proof.
  intros lib.
  assert (Hskip : Some "MultiPoint" ∉ handled_types ∨
            gdf_rows (@select_type _ lib Demo.one_multipoint (Some "MultiPoint")) = []).
  { left. unfold handled_types. rewrite !not_elem_of_cons.
    repeat split; try discriminate. apply not_elem_of_nil. }
  split; [exact Hskip|].
  exact (@unhandled_types_add_no_layer _ lib Demo.one_multipoint []
           (Some "MultiPoint") Hskip).
Defined.

Lemma add_layers_appends_proper_layers_witness :
  let lib := Demo.lib (λ _, Ok Demo.native_frame) in
  let selected := [Some "LineString"; Some "Polygon"] in
  let built :=
    [GeoJson (@select_type _ lib Demo.line_and_polygon (Some "LineString"))
       (Some "LineString") line_style;
     GeoJson (@select_type _ lib Demo.line_and_polygon (Some "Polygon"))
       (Some "Polygon") polygon_style] in
  @add_layers _ lib Demo.line_and_polygon [] selected = Ok built ∧
  ∃ new, built = ([] ++ new)%list ∧ (length new ≤ length selected)%nat ∧
         Forall (@proper_layer _ lib) new.
Proof.
  intros lib selected built.
  assert (Hdone : @add_layers _ lib Demo.line_and_polygon [] selected = Ok built)
    by reflexivity.
  split; [exact Hdone|].
  exact (@add_layers_appends_proper_layers _ lib Demo.line_and_polygon selected
           [] built Hdone).
Defined.

(** A pass on a file whose first column label is the integer 0: the file
    is read, line 31 raises on the label, and the pass reports a failure
    to read the file; the column named [geometry] is never looked at. *)
Lemma int_label_frame_is_reported_as_read_error :
  Demo.run Demo.int_label_frame Demo.all_types =
    (Ok (),
     mkWorld ∅
       (page_header ++
        [CallReadTable "/tmp/tmpk3v9x2ab.parquet";
         StError "Error reading the parquet file: 'int' object has no attribute 'lower'"] ++
        page_footer)%list).
Proof. vm_compute. reflexivity. Qed.
